(** * AFEM: Boolean-operation facade (afem/topology/bop.py) and array
    marshalling (afem/utils/tcol.py), as a shallow embedding.

    Python objects are a small inductive type, exceptions an explicit
    outcome of a state monad.  The OpenCASCADE/SALOME engines are modelled
    as records that log every method call they receive; what their
    algorithms compute is left abstract (Section variables). *)

From Stdlib Require Import List ZArith QArith String Bool Lia.
Import ListNotations.
Open Scope list_scope.

(** ** Python values and exceptions *)

(** A kernel point [gp_Pnt]: three double coordinates, kept exact. *)
Record gp_Pnt := mk_gp_Pnt { pnt_X : Q; pnt_Y : Q; pnt_Z : Q }.

(** The Python objects that reach the code: [None], numbers, strings,
    lists and tuples, NumPy arrays, kernel points and kernel shapes
    ([TopoDS_Shape], identified by a number). *)
Set Warnings "-register-all".
Inductive pyobj :=
| PNone
| PInt (z : Z)
| PFloat (q : Q)
| PStr (s : string)
| PList (l : list pyobj)
| PArray (l : list pyobj)
| PPnt (p : gp_Pnt)
| PShape (id : nat).

Inductive exn :=
  TypeError | ValueError | AttributeError | RuntimeError | OverflowError.

(** Result of running a statement: a value or a raised exception, each
    with the state reached. *)
Inductive outcome (S A : Type) :=
| Ok (a : A) (s : S)
| Raise (e : exn) (s : S).
Arguments Ok {S A} a s.
Arguments Raise {S A} e s.

Definition M (S A : Type) := S -> outcome S A.

Definition ret {S A} (a : A) : M S A := fun s => Ok a s.
Definition raise {S A} (e : exn) : M S A := fun s => Raise e s.
Definition bind {S A B} (m : M S A) (k : A -> M S B) : M S B :=
  fun s => match m s with
           | Ok a s' => k a s'
           | Raise e s' => Raise e s'
           end.
Definition get {S} : M S S := fun s => Ok s s.
Definition put {S} (s : S) : M S unit := fun _ => Ok tt s.

Notation "x <- m ;; k" := (bind m (fun x => k))
  (at level 61, m at next level, right associativity).
Notation "m ;; k" := (bind m (fun _ => k))
  (at level 61, right associativity).

(** ** The Boolean-operation engines *)

(** The five kernel classes a facade can wrap:
    [BRepAlgoAPI_Fuse], [_Cut], [_Common], [_Section] (here [SectionOp]), [GEOMAlgo_Splitter]. *)
Inductive op_kind := Fuse | Cut | Common | SectionOp | Splitter.

(** [isinstance(self._bop, GEOMAlgo_Splitter)] *)
Definition is_splitter (k : op_kind) : bool :=
  match k with Splitter => true | _ => false end.

(** Method calls the facade issues on its engine. *)
Inductive call :=
| SetRunParallel (b : bool)
| SetFuzzyValue (v : Q)
| AddArgument (s : pyobj)
| AddTool (s : pyobj)
| SetArguments (l : list pyobj)
| SetTools (l : list pyobj)
| Build
| Perform
| RefineEdges.

Inductive run_status := NotRun | Ran (ok : bool).

Record engine := mkEngine {
  kind : op_kind;
  created_with : list pyobj;   (* operands given to the constructor *)
  e_args : list pyobj;
  e_tools : list pyobj;
  run_parallel : bool;
  fuzzy : option Q;
  status : run_status;
  calls : list call            (* method calls received, oldest first *)
}.

(** The facade object: its [_bop] attribute (absent before [__init__]
    assigns it) and the process-wide warning stream. *)
Record st := mkSt { self_bop : option engine; warns : list string }.

Definition fresh (w : list string) : st := mkSt None w.

(** Modelled from the spec: [CheckShape.is_shape] (afem/topology/check.py,
    not part of the sources): true exactly for a kernel shape. *)
Definition is_shape (x : pyobj) : bool :=
  match x with PShape _ => true | _ => false end.

(** Modelled from the spec: [to_toptools_listofshape]
    (afem/occ/utils.py, not part of the sources): the kernel list holds
    the given shapes in order. *)
Definition to_toptools_listofshape (l : list pyobj) : list pyobj := l.

(** Modelled from the spec: [to_lst_from_toptools_listofshape]
    (afem/occ/utils.py): the Python list of the kernel list's shapes. *)
Definition to_lst_from_toptools_listofshape (l : list pyobj) : list pyobj := l.

(** What the kernel algorithms compute is not part of this repository:
    whether a run of engine [k] on arguments and tools completes without
    error, the answers of [FuseEdges] and [SectionEdges] of the
    [BRepAlgoAPI] engines, and whether [GEOMAlgo_Splitter] answers
    [SetArguments]/[SetTools] (this depends on the kernel build). *)
Class Kernel := {
  kernel_ok : op_kind -> list pyobj -> list pyobj -> bool;
  api_fuse_edges : engine -> bool;
  api_section_edges : engine -> list pyobj;
  splitter_set_lists : bool
}.

Section Facade.
Context `{KER : Kernel}.

(** [bop()]: an engine without operands. *)
Definition engine_new (k : op_kind) : engine :=
  mkEngine k [] [] [] false None NotRun [].

(** [bop(shape1, shape2)]: the [BRepAlgoAPI] two-shape constructors take
    [shape1] as argument and [shape2] as tool and run [Build()] themselves
    (the class doctests rely on it: [FuseShapes(e1, e2)] is followed by
    [assert bop.is_done]).  [GEOMAlgo_Splitter] has no such constructor. *)
Definition engine_new2 (k : op_kind) (s1 s2 : pyobj) : option engine :=
  if is_splitter k then None
  else Some (mkEngine k [s1; s2] [s1] [s2] false None
               (Ran (kernel_ok k [s1] [s2])) []).

(** Which methods an engine class has. *)
Definition supports (k : op_kind) (c : call) : bool :=
  match c with
  | SetRunParallel _ | SetFuzzyValue _ => true
  | AddArgument _ | AddTool _ | Perform => is_splitter k
  | SetArguments _ | SetTools _ =>
      if is_splitter k then splitter_set_lists else true
  | Build | RefineEdges => negb (is_splitter k)
  end.

(** Effect of one method on the engine's fields. *)
Definition apply_call (e : engine) (c : call) : engine :=
  match c with
  | SetRunParallel b =>
      mkEngine (kind e) (created_with e) (e_args e) (e_tools e) b
               (fuzzy e) (status e) (calls e)
  | SetFuzzyValue v =>
      mkEngine (kind e) (created_with e) (e_args e) (e_tools e)
               (run_parallel e) (Some v) (status e) (calls e)
  | AddArgument s =>
      mkEngine (kind e) (created_with e) (e_args e ++ [s]) (e_tools e)
               (run_parallel e) (fuzzy e) (status e) (calls e)
  | AddTool s =>
      mkEngine (kind e) (created_with e) (e_args e) (e_tools e ++ [s])
               (run_parallel e) (fuzzy e) (status e) (calls e)
  | SetArguments l =>
      mkEngine (kind e) (created_with e) l (e_tools e)
               (run_parallel e) (fuzzy e) (status e) (calls e)
  | SetTools l =>
      mkEngine (kind e) (created_with e) (e_args e) l
               (run_parallel e) (fuzzy e) (status e) (calls e)
  | Build | Perform =>
      mkEngine (kind e) (created_with e) (e_args e) (e_tools e)
               (run_parallel e) (fuzzy e)
               (Ran (kernel_ok (kind e) (e_args e) (e_tools e))) (calls e)
  | RefineEdges => e
  end.

(** A method call: a missing method raises [AttributeError]; otherwise
    the call takes effect and is logged. *)
Definition engine_call (e : engine) (c : call) : option engine :=
  if supports (kind e) c then
    let e' := apply_call e c in
    Some (mkEngine (kind e') (created_with e') (e_args e') (e_tools e')
                   (run_parallel e') (fuzzy e') (status e') (calls e ++ [c]))
  else None.

(** [GEOMAlgo_Splitter.ErrorStatus()]: 0 after a run without error. *)
Definition ErrorStatus (e : engine) : Z :=
  match status e with Ran true => 0%Z | _ => 1%Z end.

(** [BRepAlgoAPI_*.IsDone()] *)
Definition IsDone (e : engine) : bool :=
  match status e with Ran b => b | NotRun => false end.

(** Reading and writing [self._bop]; calling one of its methods. *)
Definition get_bop : M st engine :=
  s <- get;;
  match self_bop s with
  | Some e => ret e
  | None => raise AttributeError
  end.

Definition set_bop (e : engine) : M st unit :=
  s <- get;; put (mkSt (Some e) (warns s)).

Definition bop_call (c : call) : M st unit :=
  e <- get_bop;;
  match engine_call e c with
  | Some e' => set_bop e'
  | None => raise AttributeError
  end.

(** [warn(msg, RuntimeWarning)] under the default warning filters: the
    message is emitted and execution goes on. *)
Definition warn (msg : string) : M st unit :=
  s <- get;; put (mkSt (self_bop s) (warns s ++ [msg])).

(** [BopAlgo.__init__(self, shape1, shape2, parallel, fuzzy_val, bop)];
    [parallel] is read for its truth value, [fuzzy_val] is [None] or a
    number. *)
Definition BopAlgo___init__ (shape1 shape2 : pyobj) (parallel : bool)
    (fuzzy_val : option Q) (bop : op_kind) : M st unit :=
  (if is_shape shape1 && is_shape shape2 then
     match engine_new2 bop shape1 shape2 with
     | Some e => set_bop e
     | None => raise TypeError
     end
   else set_bop (engine_new bop));;
  (if parallel then bop_call (SetRunParallel true) else ret tt);;
  match fuzzy_val with
  | Some v => bop_call (SetFuzzyValue v)
  | None => ret tt
  end.

Definition FuseShapes shape1 shape2 parallel fuzzy_val :=
  BopAlgo___init__ shape1 shape2 parallel fuzzy_val Fuse.
Definition CutShapes shape1 shape2 parallel fuzzy_val :=
  BopAlgo___init__ shape1 shape2 parallel fuzzy_val Cut.
Definition CommonShapes shape1 shape2 parallel fuzzy_val :=
  BopAlgo___init__ shape1 shape2 parallel fuzzy_val Common.
Definition IntersectShapes shape1 shape2 parallel fuzzy_val :=
  BopAlgo___init__ shape1 shape2 parallel fuzzy_val SectionOp.

(** [SplitShapes.__init__] *)
Definition SplitShapes (shape1 shape2 : pyobj) (parallel : bool)
    (fuzzy_val : option Q) : M st unit :=
  BopAlgo___init__ PNone PNone parallel fuzzy_val Splitter;;
  if is_shape shape1 && is_shape shape2 then
    bop_call (AddArgument shape1);;
    bop_call (AddArgument shape2);;
    bop_call Perform
  else ret tt.

Definition add_arg (shape : pyobj) : M st unit := bop_call (AddArgument shape).
Definition add_tool (shape : pyobj) : M st unit := bop_call (AddTool shape).

(** [BopAlgo.set_args]: for the splitter, the [return None] sits inside
    the [for] loop, so only the first shape is added; an empty list leaves
    the loop and reaches [SetArguments]. *)
Definition set_args (shapes : list pyobj) : M st unit :=
  e <- get_bop;;
  let fall_through :=
    bop_call (SetArguments (to_toptools_listofshape shapes)) in
  if is_splitter (kind e) then
    match shapes with
    | shape :: _ => bop_call (AddArgument shape)
    | [] => fall_through
    end
  else fall_through.

(** [BopAlgo.set_tools] *)
Definition set_tools (shapes : list pyobj) : M st unit :=
  e <- get_bop;;
  let fall_through := bop_call (SetTools (to_toptools_listofshape shapes)) in
  if is_splitter (kind e) then
    match shapes with
    | shape :: _ => bop_call (AddTool shape)
    | [] => fall_through
    end
  else fall_through.

(** [BopAlgo.build] *)
Definition build : M st unit :=
  e <- get_bop;;
  if is_splitter (kind e) then bop_call Perform else bop_call Build.

(** [BopAlgo.is_done] *)
Definition is_done : M st bool :=
  e <- get_bop;;
  if is_splitter (kind e) then ret (Z.eqb (ErrorStatus e) 0)
  else ret (IsDone e).

(** [BopAlgo.refine_edges] *)
Definition refine_edges : M st unit :=
  e <- get_bop;;
  if is_splitter (kind e) then
    warn "Refine edges not implemented for GEOMAlgo_Splitter."
  else bop_call RefineEdges.

(** [BopAlgo.fuse_edges] *)
Definition fuse_edges : M st bool :=
  e <- get_bop;;
  if is_splitter (kind e) then ret false else ret (api_fuse_edges e).

(** [BopAlgo.section_edges] *)
Definition section_edges : M st (list pyobj) :=
  e <- get_bop;;
  if is_splitter (kind e) then
    warn ("Section edges not implemented for GEOMAlgo_Splitter. " ++
          "Returning empty list.");;
    ret []
  else ret (to_lst_from_toptools_listofshape (api_section_edges e)).

End Facade.

(** The engine calls [__init__] issues for [parallel] and [fuzzy_val]. *)
Definition config_calls (parallel : bool) (fuzzy_val : option Q) : list call :=
  (if parallel then [SetRunParallel true] else []) ++
  match fuzzy_val with Some v => [SetFuzzyValue v] | None => [] end.

(** ** Array marshalling (afem/utils/tcol.py) *)

Section Tcol.

(** Python's [float(str)] and [int(str)] parsers: [None] when they raise
    [ValueError]. *)
Class PyBuiltins := {
  float_of_string : string -> option Q;
  int_of_string : string -> option Z
}.
Context `{PYB : PyBuiltins}.

(** The marshalling state: the number of kernel arrays allocated. *)
Definition TM := M nat.

Definition lift {A} (r : exn + A) : TM A :=
  match r with inl e => raise e | inr a => ret a end.

Fixpoint foldM {A B} (f : B -> A -> TM B) (l : list A) (b : B) : TM B :=
  match l with
  | [] => ret b
  | x :: r => b' <- f b x;; foldM f r b'
  end.

(** [enumerate(l, start)] *)
Fixpoint enumerate {A} (start : Z) (l : list A) : list (Z * A) :=
  match l with
  | [] => []
  | x :: r => (start, x) :: enumerate (start + 1)%Z r
  end.

Fixpoint list_set {A} (l : list A) (n : nat) (x : A) : list A :=
  match l, n with
  | [], _ => []
  | _ :: r, O => x :: r
  | y :: r, S n' => y :: list_set r n' x
  end.

(** A kernel [NCollection_Array1]: bounds and the values from [lower]
    to [upper]. *)
Record Array1 (A : Type) := mkArray1 { lower : Z; upper : Z; avals : list A }.
#[global] Arguments mkArray1 {A} lower upper avals.
#[global] Arguments lower {A} a.
#[global] Arguments upper {A} a.
#[global] Arguments avals {A} a.

(** [TColgp_Array1OfPnt(lo, hi)], [TColStd_Array1OfReal(lo, hi)], ...:
    a fresh kernel array whose cells hold the element type's default. *)
Definition Array1_new {A} (dflt : A) (lo hi : Z) : TM (Array1 A) :=
  n <- get;; put (S n);;
  ret (mkArray1 lo hi (repeat dflt (Z.to_nat (hi - lo + 1)%Z))).

(** [Length()] *)
Definition Length {A} (a : Array1 A) : Z := (upper a - lower a + 1)%Z.

(** [SetValue(i, x)]: out of bounds raises [Standard_OutOfRange]. *)
Definition SetValue {A} (a : Array1 A) (i : Z) (x : A) : TM (Array1 A) :=
  if Z.leb (lower a) i && Z.leb i (upper a) then
    ret (mkArray1 (lower a) (upper a)
                  (list_set (avals a) (Z.to_nat (i - lower a)%Z) x))
  else raise RuntimeError.

(** [Value(i)] *)
Definition Value {A} (a : Array1 A) (i : Z) : TM A :=
  if Z.leb (lower a) i && Z.leb i (upper a) then
    match nth_error (avals a) (Z.to_nat (i - lower a)%Z) with
    | Some x => ret x
    | None => raise RuntimeError
    end
  else raise RuntimeError.

(** Modelled from the spec: [is_array_like] (afem/utils/misc.py, not part
    of the sources): lists, tuples and NumPy arrays. *)
Definition is_array_like (p : pyobj) : bool :=
  match p with PList _ | PArray _ => true | _ => false end.

(** [len(p)] and the items of an array-like. *)
Definition py_items (p : pyobj) : list pyobj :=
  match p with PList l | PArray l => l | _ => [] end.
Definition py_len (p : pyobj) : nat := List.length (py_items p).

(** A Python number handed to a [double] parameter of the kernel. *)
Definition py_double (x : pyobj) : option Q :=
  match x with
  | PInt z => Some (inject_Z z)
  | PFloat q => Some q
  | _ => None
  end.

(** [gp_Pnt] applied to the items of [p]: three numbers, otherwise the
    wrapper raises. *)
Definition gp_Pnt_new (args : list pyobj) : exn + gp_Pnt :=
  match args with
  | [a; b; c] =>
      match py_double a, py_double b, py_double c with
      | Some x, Some y, Some z => inr (mk_gp_Pnt x y z)
      | _, _, _ => inl TypeError
      end
  | _ => inl TypeError
  end.

(** [_to_gp_pnt(p)]: [None] is [inr None]. *)
Definition _to_gp_pnt (p : pyobj) : exn + option gp_Pnt :=
  match p with
  | PPnt q => inr (Some q)
  | _ =>
      if is_array_like p && Nat.eqb (py_len p) 3 then
        match gp_Pnt_new (py_items p) with
        | inl e => inl e
        | inr q => inr (Some q)
        end
      else inr None
  end.

(** First loop of [to_tcolgp_array1_pnt]: [gp_pnts] built by
    [append], skipping ([continue]) where [_to_gp_pnt] gives [None]. *)
Fixpoint collect_gp_pnts (pnts : list pyobj) (gp_pnts : list gp_Pnt)
    : exn + list gp_Pnt :=
  match pnts with
  | [] => inr gp_pnts
  | gp :: rest =>
      match _to_gp_pnt gp with
      | inl e => inl e
      | inr None => collect_gp_pnts rest gp_pnts
      | inr (Some g) => collect_gp_pnts rest (gp_pnts ++ [g])
      end
  end.

(** [gp_Pnt()] is the origin. *)
Definition gp_origin : gp_Pnt := mk_gp_Pnt 0 0 0.

(** [for i, x in enumerate(xs, 1): array.SetValue(i, x)] *)
Definition set_values {A} (array : Array1 A) (xs : list A) : TM (Array1 A) :=
  foldM (fun a ix => SetValue a (fst ix) (snd ix)) (enumerate 1%Z xs) array.

(** [to_tcolgp_array1_pnt(pnts)] *)
Definition to_tcolgp_array1_pnt (pnts : list pyobj) : TM (Array1 gp_Pnt) :=
  gp_pnts <- lift (collect_gp_pnts pnts []);;
  let n := Z.of_nat (List.length gp_pnts) in
  array <- Array1_new gp_origin 1%Z n;;
  set_values array gp_pnts.

(** [float(x)] *)
Fixpoint py_float (x : pyobj) : exn + Q :=
  match x with
  | PInt z => inr (inject_Z z)
  | PFloat q => inr q
  | PStr s =>
      match float_of_string s with Some q => inr q | None => inl ValueError end
  | PArray [y] => py_float y
  | _ => inl TypeError
  end.

(** [int(x)]: floats are truncated toward zero. *)
Fixpoint py_int (x : pyobj) : exn + Z :=
  match x with
  | PInt z => inr z
  | PFloat q => inr (Z.quot (Qnum q) (Zpos (Qden q)))
  | PStr s =>
      match int_of_string s with Some z => inr z | None => inl ValueError end
  | PArray [y] => py_int y
  | _ => inl TypeError
  end.

(** A list comprehension [[f(x) for x in xs]]: the first raise aborts. *)
Fixpoint comprehension {A} (f : pyobj -> exn + A) (xs : list pyobj)
    : exn + list A :=
  match xs with
  | [] => inr []
  | x :: r =>
      match f x with
      | inl e => inl e
      | inr a =>
          match comprehension f r with
          | inl e => inl e
          | inr l => inr (a :: l)
          end
      end
  end.

(** [to_tcolstd_array1_real(array)]; the cells of a fresh
    [TColStd_Array1OfReal] are unspecified, written 0 here. *)
Definition to_tcolstd_array1_real (array : list pyobj) : TM (Array1 Q) :=
  flts <- lift (comprehension py_float array);;
  let n := Z.of_nat (List.length flts) in
  arr <- Array1_new 0%Q 1%Z n;;
  set_values arr flts.

(** A [Standard_Integer] is 32-bit. *)
Definition in_int32 (z : Z) : bool :=
  Z.leb (-2147483648) z && Z.leb z 2147483647.

(** [TColStd_Array1OfInteger.SetValue(i, x)]: the wrapper converts the
    Python int [x] to a [Standard_Integer] and raises [OverflowError]
    outside its range. *)
Definition SetValueInt (a : Array1 Z) (i x : Z) : TM (Array1 Z) :=
  if in_int32 x then SetValue a i x else raise OverflowError.

(** [to_tcolstd_array1_integer(array)] *)
Definition to_tcolstd_array1_integer (array : list pyobj) : TM (Array1 Z) :=
  ints <- lift (comprehension py_int array);;
  let n := Z.of_nat (List.length ints) in
  arr <- Array1_new 0%Z 1%Z n;;
  foldM (fun a ix => SetValueInt a (fst ix) (snd ix)) (enumerate 1%Z ints) arr.

(** [to_np_from_tcolgp_array1_pnt(tcol_array)]: an [n x 3] NumPy array
    of floats, as a list of rows. *)
Definition to_np_from_tcolgp_array1_pnt (tcol_array : Array1 gp_Pnt)
    : TM (list (list Q)) :=
  let n := Z.to_nat (Length tcol_array) in
  let array := repeat [0%Q; 0%Q; 0%Q] n in
  foldM (fun array i =>
           p <- Value tcol_array (Z.of_nat i + 1)%Z;;
           ret (list_set array i [pnt_X p; pnt_Y p; pnt_Z p]))
        (seq 0 n) array.

(** [to_tcolgp_harray1_pnt(pnts)]: the same two loops as
    [to_tcolgp_array1_pnt], filling a [TColgp_HArray1OfPnt]. *)
Definition to_tcolgp_harray1_pnt (pnts : list pyobj) : TM (Array1 gp_Pnt) :=
  gp_pnts <- lift (collect_gp_pnts pnts []);;
  let n := Z.of_nat (List.length gp_pnts) in
  harray <- Array1_new gp_origin 1%Z n;;
  set_values harray gp_pnts.

(** [to_np_from_tcolstd_array1_real(tcol_array)] *)
Definition to_np_from_tcolstd_array1_real (tcol_array : Array1 Q)
    : TM (list Q) :=
  let n := Z.to_nat (Length tcol_array) in
  let array := repeat 0%Q n in
  foldM (fun array i =>
           x <- Value tcol_array (Z.of_nat i + 1)%Z;;
           ret (list_set array i x))
        (seq 0 n) array.

(** [to_np_from_tcolstd_array1_integer(tcol_array)] *)
Definition to_np_from_tcolstd_array1_integer (tcol_array : Array1 Z)
    : TM (list Z) :=
  let n := Z.to_nat (Length tcol_array) in
  let array := repeat 0%Z n in
  foldM (fun array i =>
           x <- Value tcol_array (Z.of_nat i + 1)%Z;;
           ret (list_set array i x))
        (seq 0 n) array.

(** *** 2-D arrays *)

(** A NumPy array of floats: a scalar, or a sequence of sub-arrays. *)
Inductive nd := NLeaf (q : Q) | NNode (l : list nd).

(** [[f(x) for x in l]]: the first raise aborts. *)
Fixpoint mapE {A B} (f : A -> exn + B) (l : list A) : exn + list B :=
  match l with
  | [] => inr []
  | x :: r =>
      match f x with
      | inl e => inl e
      | inr b =>
          match mapE f r with
          | inl e => inl e
          | inr t => inr (b :: t)
          end
      end
  end.

(** [.shape] (of a homogeneous array). *)
Fixpoint nd_shape (x : nd) : list nat :=
  match x with
  | NLeaf _ => []
  | NNode l =>
      List.length l :: match l with [] => [] | c :: _ => nd_shape c end
  end.

Definition same_shape (s0 : list nat) (c : nd) : bool :=
  if list_eq_dec Nat.eq_dec (nd_shape c) s0 then true else false.

(** [np_array(x, dtype=float)]: lists, tuples and arrays become
    dimensions, whose items must all have one shape ([ValueError]
    otherwise); anything else goes through [float()]. *)
Fixpoint np_float (x : pyobj) : exn + nd :=
  match x with
  | PList l | PArray l =>
      match mapE np_float l with
      | inl e => inl e
      | inr [] => inr (NNode [])
      | inr (c :: r) =>
          if forallb (same_shape (nd_shape c)) r then inr (NNode (c :: r))
          else inl ValueError
      end
  | _ =>
      match py_float x with
      | inl e => inl e
      | inr q => inr (NLeaf q)
      end
  end.

(** An item of a NumPy array seen from Python: a [numpy.float64] (a
    [float]) or a sub-array. *)
Fixpoint nd_to_py (x : nd) : pyobj :=
  match x with
  | NLeaf q => PFloat q
  | NNode l => PArray (map nd_to_py l)
  end.

(** [x[i, j]] *)
Definition nd_at (x : nd) (i j : nat) : exn + nd :=
  match x with
  | NNode rows =>
      match nth_error rows i with
      | Some (NNode cols) =>
          match nth_error cols j with Some c => inr c | None => inl ValueError end
      | _ => inl ValueError
      end
  | NLeaf _ => inl ValueError
  end.

(** A kernel [NCollection_Array2]: row and column bounds, rows of cells. *)
Record Array2 (A : Type) := mkArray2 {
  row_lo : Z; row_hi : Z; col_lo : Z; col_hi : Z; cells : list (list A) }.

(** [TColgp_Array2OfPnt(rlo, rhi, clo, chi)], [TColStd_Array2OfReal(...)] *)
Definition Array2_new {A} (dflt : A) (rlo rhi clo chi : Z) : TM (Array2 A) :=
  n <- get;; put (S n);;
  ret (mkArray2 A rlo rhi clo chi
         (repeat (repeat dflt (Z.to_nat (chi - clo + 1)%Z))
                 (Z.to_nat (rhi - rlo + 1)%Z))).

Definition in_bounds2 {A} (a : Array2 A) (i j : Z) : bool :=
  Z.leb (row_lo A a) i && Z.leb i (row_hi A a) &&
  Z.leb (col_lo A a) j && Z.leb j (col_hi A a).

(** [SetValue(i, j, x)] *)
Definition SetValue2 {A} (a : Array2 A) (i j : Z) (x : A) : TM (Array2 A) :=
  if in_bounds2 a i j then
    let r := Z.to_nat (i - row_lo A a)%Z in
    ret (mkArray2 A (row_lo A a) (row_hi A a) (col_lo A a) (col_hi A a)
           (list_set (cells A a) r
              (list_set (nth r (cells A a) []) (Z.to_nat (j - col_lo A a)%Z) x)))
  else raise RuntimeError.

(** [Value(i, j)] *)
Definition Value2 {A} (a : Array2 A) (i j : Z) : TM A :=
  if in_bounds2 a i j then
    match nth_error (cells A a) (Z.to_nat (i - row_lo A a)%Z) with
    | Some row =>
        match nth_error row (Z.to_nat (j - col_lo A a)%Z) with
        | Some x => ret x
        | None => raise RuntimeError
        end
    | None => raise RuntimeError
    end
  else raise RuntimeError.

(** [ColLength()] (number of rows) and [RowLength()] (number of columns). *)
Definition ColLength {A} (a : Array2 A) : Z := (row_hi A a - row_lo A a + 1)%Z.
Definition RowLength {A} (a : Array2 A) : Z := (col_hi A a - col_lo A a + 1)%Z.

(** [to_tcolgp_array2_pnt(pnts)]; [SetValue(i, j, None)] is refused by
    the SWIG wrapper, which raises [ValueError] for a null reference. *)
Definition to_tcolgp_array2_pnt (pnts : pyobj) : TM (Array2 gp_Pnt) :=
  arr <- lift (np_float pnts);;
  match nd_shape arr with
  | n :: m :: _ =>
      gp_pnts <- lift (mapE (fun i =>
                         mapE (fun j =>
                                 match nd_at arr i j with
                                 | inl e => inl e
                                 | inr c => _to_gp_pnt (nd_to_py c)
                                 end) (seq 0 m)) (seq 0 n));;
      array <- Array2_new gp_origin 1%Z (Z.of_nat n) 1%Z (Z.of_nat m);;
      foldM (fun a irow =>
               foldM (fun a jgp =>
                        match snd jgp with
                        | Some gp => SetValue2 a (fst irow) (fst jgp) gp
                        | None => raise ValueError
                        end) (enumerate 1%Z (snd irow)) a)
            (enumerate 1%Z gp_pnts) array
  | _ => raise ValueError
  end.

(** [float(flts[i, j])] *)
Definition nd_float (x : nd) : exn + Q :=
  match x with NLeaf q => inr q | NNode _ => inl TypeError end.

(** [to_tcolstd_array2_real(array)] *)
Definition to_tcolstd_array2_real (array : pyobj) : TM (Array2 Q) :=
  flts <- lift (np_float array);;
  match nd_shape flts with
  | [n; m] =>
      arr <- Array2_new 0%Q 1%Z (Z.of_nat n) 1%Z (Z.of_nat m);;
      foldM (fun a i =>
               foldM (fun a j =>
                        x <- lift (match nd_at flts (i - 1) (j - 1) with
                                   | inl e => inl e
                                   | inr c => nd_float c
                                   end);;
                        SetValue2 a (Z.of_nat i) (Z.of_nat j) x)
                     (seq 1 m) a)
            (seq 1 n) arr
  | _ => raise ValueError
  end.

(** [to_np_from_tcolgp_array2_pnt(tcol_array)]: an [n x m x 3] array. *)
Definition to_np_from_tcolgp_array2_pnt (tcol_array : Array2 gp_Pnt)
    : TM (list (list (list Q))) :=
  let n := Z.to_nat (ColLength tcol_array) in
  let m := Z.to_nat (RowLength tcol_array) in
  let array := repeat (repeat [0%Q; 0%Q; 0%Q] m) n in
  foldM (fun array i =>
           foldM (fun array j =>
                    p <- Value2 tcol_array (Z.of_nat i + 1) (Z.of_nat j + 1);;
                    ret (list_set array i
                           (list_set (nth i array []) j
                              [pnt_X p; pnt_Y p; pnt_Z p])))
                 (seq 0 m) array)
        (seq 0 n) array.

(** [to_np_from_tcolstd_array2_real(tcol_array)] *)
Definition to_np_from_tcolstd_array2_real (tcol_array : Array2 Q)
    : TM (list (list Q)) :=
  let n := Z.to_nat (ColLength tcol_array) in
  let m := Z.to_nat (RowLength tcol_array) in
  let array := repeat (repeat 0%Q m) n in
  foldM (fun array i =>
           foldM (fun array j =>
                    x <- Value2 tcol_array (Z.of_nat i + 1) (Z.of_nat j + 1);;
                    ret (list_set array i (list_set (nth i array []) j x)))
                 (seq 0 m) array)
        (seq 0 n) array.

End Tcol.

(** A kernel whose runs succeed, as in the class doctests
    ([assert bop.is_done] on two crossing edges). *)
Definition occ_kernel : Kernel := {|
  kernel_ok := fun _ _ _ => true;
  api_fuse_edges := fun _ => false;
  api_section_edges := fun _ => [];
  splitter_set_lists := false
|}.

(** Python parsers that accept no string (enough for inputs with no
    strings). *)
Definition no_parse : PyBuiltins := {|
  float_of_string := fun _ => None;
  int_of_string := fun _ => None
|}.

(** The engine left by [__init__] on the no-operand path. *)
Definition configured_engine (k : op_kind) (parallel : bool)
    (fuzzy_val : option Q) : engine :=
  mkEngine k [] [] [] parallel fuzzy_val NotRun (config_calls parallel fuzzy_val).

(** Elements [_to_gp_pnt] turns into [None] (skipped by the converters),
    and the points it accepts, in order. *)
Definition rejected (p : pyobj) : bool :=
  match _to_gp_pnt p with inr None => true | _ => false end.

Definition accepted_points (pnts : list pyobj) : list gp_Pnt :=
  flat_map (fun p => match _to_gp_pnt p with
                     | inr (Some g) => [g]
                     | _ => []
                     end) pnts.

(** The coordinates a point-like host value stands for. *)
Definition coords_of (p : pyobj) : option (list Q) :=
  match p with
  | PPnt q => Some [pnt_X q; pnt_Y q; pnt_Z q]
  | PList [a; b; c] | PArray [a; b; c] =>
      match py_double a, py_double b, py_double c with
      | Some x, Some y, Some z => Some [x; y; z]
      | _, _, _ => None
      end
  | _ => None
  end.

Definition pnt_coords (q : gp_Pnt) : list Q := [pnt_X q; pnt_Y q; pnt_Z q].

(** The NumPy row [[x, y, z]] of a point. *)
Definition pnt_nd (q : gp_Pnt) : nd :=
  NNode [NLeaf (pnt_X q); NLeaf (pnt_Y q); NLeaf (pnt_Z q)].

(** A caller's loop [for shape in shapes: f(shape)] over facade methods. *)
Fixpoint for_each (f : pyobj -> M st unit) (shapes : list pyobj) : M st unit :=
  match shapes with
  | [] => ret tt
  | shape :: rest => f shape;; for_each f rest
  end.

(** ** Facade theorems *)

Section FacadeProofs.
Context `{KER : Kernel}.

Lemma init_no_operands (shape1 shape2 : pyobj) (parallel : bool)
    (fuzzy_val : option Q) (k : op_kind) (w : list string) :
  is_shape shape1 && is_shape shape2 = false ->
  BopAlgo___init__ shape1 shape2 parallel fuzzy_val k (fresh w)
  = Ok tt (mkSt (Some (configured_engine k parallel fuzzy_val)) w).
Proof.
  intros Hs. unfold BopAlgo___init__, bind. rewrite Hs.
  destruct parallel, fuzzy_val; reflexivity.
Qed.

Lemma init_two_operands (shape1 shape2 : pyobj) (parallel : bool)
    (fuzzy_val : option Q) (k : op_kind) (w : list string) :
  is_splitter k = false -> is_shape shape1 = true -> is_shape shape2 = true ->
  BopAlgo___init__ shape1 shape2 parallel fuzzy_val k (fresh w)
  = Ok tt (mkSt (Some (mkEngine k [shape1; shape2] [shape1] [shape2]
                                parallel fuzzy_val
                                (Ran (kernel_ok k [shape1] [shape2]))
                                (config_calls parallel fuzzy_val))) w).
Proof.
  intros Hk H1 H2. unfold BopAlgo___init__, bind, engine_new2.
  rewrite H1, H2, Hk.
  destruct k; try discriminate; destruct parallel, fuzzy_val; reflexivity.
Qed.

(** What [SplitShapes(shape1, shape2)] does with two shapes: it builds the
    splitter without operands, configures it, calls [AddArgument] on
    [shape1] and on [shape2], and runs [Perform()] at once. *)
Lemma SplitShapes_two_operands_run (shape1 shape2 : pyobj) (parallel : bool)
    (fuzzy_val : option Q) (w : list string) :
  is_shape shape1 = true -> is_shape shape2 = true ->
  SplitShapes shape1 shape2 parallel fuzzy_val (fresh w)
  = Ok tt (mkSt (Some (mkEngine Splitter [] [shape1; shape2] [] parallel
                                fuzzy_val
                                (Ran (kernel_ok Splitter [shape1; shape2] []))
                                (config_calls parallel fuzzy_val ++
                                 [AddArgument shape1; AddArgument shape2;
                                  Perform]))) w).
Proof.
  intros H1 H2. unfold SplitShapes.
  unfold bind at 1. rewrite init_no_operands by reflexivity.
  rewrite H1, H2. destruct parallel, fuzzy_val; reflexivity.
Qed.

(** C2 (amended): for Fuse, Cut, Common and Section, construction with
    two shapes issues no [Build] of its own: the engine's two-shape
    constructor runs the operation, so [is_done] right after construction
    already reports the kernel's outcome on ([shape1], [shape2]); a later
    [build()] runs it again on the same operands. *)
Theorem api_two_operands_done_at_construction (k : op_kind)
    (shape1 shape2 : pyobj) (parallel : bool) (fuzzy_val : option Q)
    (w : list string) :
  is_splitter k = false -> is_shape shape1 = true -> is_shape shape2 = true ->
  let e := mkEngine k [shape1; shape2] [shape1] [shape2] parallel fuzzy_val
                    (Ran (kernel_ok k [shape1] [shape2]))
                    (config_calls parallel fuzzy_val) in
  (BopAlgo___init__ shape1 shape2 parallel fuzzy_val k;; is_done) (fresh w)
  = Ok (kernel_ok k [shape1] [shape2]) (mkSt (Some e) w)
  /\ ~ In Build (calls e)
  /\ (BopAlgo___init__ shape1 shape2 parallel fuzzy_val k;; build;; is_done)
       (fresh w)
     = Ok (kernel_ok k [shape1] [shape2])
          (mkSt (Some (mkEngine k [shape1; shape2] [shape1] [shape2] parallel
                         fuzzy_val (Ran (kernel_ok k [shape1] [shape2]))
                         (config_calls parallel fuzzy_val ++ [Build]))) w).
Proof.
  intros Hk H1 H2 e. split; [| split].
  - unfold bind at 1. rewrite init_two_operands by assumption.
    unfold is_done, get_bop, bind, get, ret; simpl. rewrite Hk.
    reflexivity.
  - subst e. simpl. destruct parallel, fuzzy_val; simpl; intuition discriminate.
  - unfold bind at 1. rewrite init_two_operands by assumption.
    unfold build, is_done, bop_call, engine_call, get_bop, set_bop,
      bind, get, put, ret; simpl. rewrite Hk.
    destruct k; try discriminate; reflexivity.
Qed.

(** C3: a splitter built from two shapes has run [Perform()] during
    construction, before any [build()]; when the kernel reports no error
    for that run, [is_done] ([ErrorStatus() == 0]) is true at once. *)
Theorem SplitShapes_done_at_construction (shape1 shape2 : pyobj)
    (parallel : bool) (fuzzy_val : option Q) (w : list string) :
  is_shape shape1 = true -> is_shape shape2 = true ->
  kernel_ok Splitter [shape1; shape2] [] = true ->
  exists e, SplitShapes shape1 shape2 parallel fuzzy_val (fresh w)
            = Ok tt (mkSt (Some e) w)
         /\ In Perform (calls e)
         /\ is_done (mkSt (Some e) w) = Ok true (mkSt (Some e) w).
Proof.
  intros H1 H2 Hok. eexists. split; [| split].
  - apply SplitShapes_two_operands_run; assumption.
  - simpl. apply in_or_app. right. simpl. tauto.
  - unfold is_done, get_bop, bind, get, ret; simpl.
    unfold ErrorStatus; simpl. rewrite Hok. reflexivity.
Qed.

(** C5: on a splitter, [set_args] and [set_tools] given a non-empty list
    add its first element only, as an argument (resp. a tool); the rest of
    the list is not looked at. *)
Theorem splitter_set_first_only (e : engine) (w : list string)
    (shape : pyobj) (rest : list pyobj) :
  kind e = Splitter ->
  set_args (shape :: rest) (mkSt (Some e) w)
  = Ok tt (mkSt (Some (mkEngine Splitter (created_with e)
                          (e_args e ++ [shape]) (e_tools e)
                          (run_parallel e) (fuzzy e) (status e)
                          (calls e ++ [AddArgument shape]))) w)
  /\ set_tools (shape :: rest) (mkSt (Some e) w)
  = Ok tt (mkSt (Some (mkEngine Splitter (created_with e)
                          (e_args e) (e_tools e ++ [shape])
                          (run_parallel e) (fuzzy e) (status e)
                          (calls e ++ [AddTool shape]))) w).
Proof.
  intros Hk. destruct e as [k cw a t p f stt cs]; simpl in Hk; subst k.
  split; reflexivity.
Qed.

(** On a splitter, [set_args([])] and [set_tools([])] leave the loop
    without adding anything and call [SetArguments]/[SetTools] on the
    splitter engine: what happens then is the kernel's answer. *)
Lemma splitter_set_empty_falls_through (e : engine) (w : list string) :
  kind e = Splitter ->
  set_args [] (mkSt (Some e) w) = bop_call (SetArguments []) (mkSt (Some e) w)
  /\ set_tools [] (mkSt (Some e) w) = bop_call (SetTools []) (mkSt (Some e) w).
Proof.
  intros Hk. unfold set_args, set_tools, get_bop, bind, get, ret; simpl.
  rewrite Hk. split; reflexivity.
Qed.

(** C8: on a splitter, [refine_edges()] only emits its warning, the
    [section_edges] query emits its warning and returns [[]], and
    [fuse_edges] is false; none of them raises or touches the engine. *)
Theorem splitter_unsupported_queries (e : engine) (w : list string) :
  kind e = Splitter ->
  refine_edges (mkSt (Some e) w)
  = Ok tt (mkSt (Some e)
             (w ++ ["Refine edges not implemented for GEOMAlgo_Splitter."%string]))
  /\ section_edges (mkSt (Some e) w)
  = Ok [] (mkSt (Some e)
             (w ++ [("Section edges not implemented for GEOMAlgo_Splitter. " ++
                     "Returning empty list.")%string]))
  /\ fuse_edges (mkSt (Some e) w) = Ok false (mkSt (Some e) w).
Proof.
  intros Hk. unfold refine_edges, section_edges, fuse_edges, warn,
    get_bop, bind, get, put, ret; simpl.
  rewrite Hk. repeat split.
Qed.

(** C9: when one of the two operands is not a shape, every facade's
    construction returns normally with an engine built without operands,
    and [parallel] and [fuzzy_val] reach it exactly as on the two-shape
    path (the same [SetRunParallel]/[SetFuzzyValue] calls). *)
Theorem construction_fallback (shape1 shape2 : pyobj) (parallel : bool)
    (fuzzy_val : option Q) (w : list string) :
  is_shape shape1 && is_shape shape2 = false ->
  (forall k, BopAlgo___init__ shape1 shape2 parallel fuzzy_val k (fresh w)
             = Ok tt (mkSt (Some (configured_engine k parallel fuzzy_val)) w))
  /\ SplitShapes shape1 shape2 parallel fuzzy_val (fresh w)
     = Ok tt (mkSt (Some (configured_engine Splitter parallel fuzzy_val)) w)
  /\ (forall k s1 s2, is_splitter k = false ->
        is_shape s1 = true -> is_shape s2 = true ->
        exists e, BopAlgo___init__ s1 s2 parallel fuzzy_val k (fresh w)
                  = Ok tt (mkSt (Some e) w)
               /\ run_parallel e = parallel /\ fuzzy e = fuzzy_val
               /\ calls e = config_calls parallel fuzzy_val).
Proof.
  intros Hs. split; [| split].
  - intros k. apply init_no_operands; assumption.
  - unfold SplitShapes. unfold bind at 1.
    rewrite init_no_operands by reflexivity.
    rewrite Hs. reflexivity.
  - intros k s1 s2 Hk H1 H2. eexists. split.
    + apply init_two_operands; assumption.
    + simpl. tauto.
Qed.

(** Calling [add_arg] (resp. [add_tool]) on a splitter for each shape of a
    list appends every shape, in order, to the engine's arguments (resp.
    tools); unlike [set_args], nothing is dropped. *)
Theorem splitter_add_accumulates (shapes : list pyobj) : forall e w,
  kind e = Splitter ->
  for_each add_arg shapes (mkSt (Some e) w)
  = Ok tt (mkSt (Some (mkEngine Splitter (created_with e)
                          (e_args e ++ shapes) (e_tools e)
                          (run_parallel e) (fuzzy e) (status e)
                          (calls e ++ map AddArgument shapes))) w)
  /\ for_each add_tool shapes (mkSt (Some e) w)
  = Ok tt (mkSt (Some (mkEngine Splitter (created_with e)
                          (e_args e) (e_tools e ++ shapes)
                          (run_parallel e) (fuzzy e) (status e)
                          (calls e ++ map AddTool shapes))) w).
Proof.
  induction shapes as [| x xs IH]; intros e w Hk;
    destruct e as [k cw a t p f stt cs]; simpl in Hk; subst k.
  - simpl. rewrite !app_nil_r. split; reflexivity.
  - destruct (IH (mkEngine Splitter cw (a ++ [x]) t p f stt (cs ++ [AddArgument x]))
                 w eq_refl) as [IHa _].
    destruct (IH (mkEngine Splitter cw a (t ++ [x]) p f stt (cs ++ [AddTool x]))
                 w eq_refl) as [_ IHt].
    simpl in IHa, IHt. rewrite <- !app_assoc in IHa, IHt. simpl in IHa, IHt.
    split; [exact IHa | exact IHt].
Qed.

(** The doctest's second path for the splitter: [SplitShapes()], then
    [set_args([a])], [set_tools([t])], [build()]: [a] is the one argument,
    [t] the one tool, [Perform()] runs once, and [is_done] reports the
    kernel's outcome on ([a], [t]). *)
Theorem SplitShapes_manual_path (a t : pyobj) (parallel : bool)
    (fuzzy_val : option Q) (w : list string) :
  (SplitShapes PNone PNone parallel fuzzy_val;; set_args [a];; set_tools [t];;
   build;; is_done) (fresh w)
  = Ok (kernel_ok Splitter [a] [t])
       (mkSt (Some (mkEngine Splitter [] [a] [t] parallel fuzzy_val
                      (Ran (kernel_ok Splitter [a] [t]))
                      (config_calls parallel fuzzy_val ++
                       [AddArgument a; AddTool t; Perform]))) w).
Proof.
  unfold bind at 1. unfold SplitShapes. unfold bind at 1.
  rewrite init_no_operands by reflexivity.
  destruct parallel, fuzzy_val; cbn;
    destruct (kernel_ok Splitter [a] [t]); reflexivity.
Qed.

(** For Fuse, Cut, Common and Section built without operands, [is_done]
    is false until [build()]; after [set_args(args)], [set_tools(tools)]
    and [build()] the engine holds exactly [args] and [tools] and
    [is_done] reports the kernel's outcome on them. *)
Theorem api_manual_path (k : op_kind) (args tools : list pyobj)
    (parallel : bool) (fuzzy_val : option Q) (w : list string) :
  is_splitter k = false ->
  (BopAlgo___init__ PNone PNone parallel fuzzy_val k;; is_done) (fresh w)
  = Ok false (mkSt (Some (configured_engine k parallel fuzzy_val)) w)
  /\ (BopAlgo___init__ PNone PNone parallel fuzzy_val k;;
      set_args args;; set_tools tools;; build;; is_done) (fresh w)
  = Ok (kernel_ok k args tools)
       (mkSt (Some (mkEngine k [] args tools parallel fuzzy_val
                      (Ran (kernel_ok k args tools))
                      (config_calls parallel fuzzy_val ++
                       [SetArguments args; SetTools tools; Build]))) w).
Proof.
  intros Hk. split.
  - unfold bind at 1. rewrite init_no_operands by reflexivity.
    unfold is_done, get_bop, bind, get, ret; simpl. rewrite Hk. reflexivity.
  - unfold bind at 1. rewrite init_no_operands by reflexivity.
    destruct k; try discriminate; destruct parallel, fuzzy_val; reflexivity.
Qed.

End FacadeProofs.

(** ** Marshalling theorems *)

Section TcolProofs.
Context `{PYB : PyBuiltins}.

Lemma list_set_app {A} (pre r : list A) (x y : A) :
  list_set (pre ++ y :: r) (List.length pre) x = pre ++ x :: r.
Proof. induction pre as [| z pre IH]; simpl; [reflexivity | now rewrite IH]. Qed.

Lemma set_values_gen {A} (xs : list A) : forall pre rest start s,
  List.length rest = List.length xs ->
  start = (Z.of_nat (List.length pre) + 1)%Z ->
  foldM (fun a ix => SetValue a (fst ix) (snd ix)) (enumerate start xs)
    (mkArray1 1%Z (Z.of_nat (List.length pre + List.length xs)) (pre ++ rest)) s
  = Ok (mkArray1 1%Z (Z.of_nat (List.length pre + List.length xs)) (pre ++ xs)) s.
Proof.
  induction xs as [| x xs IH]; intros pre rest start s Hl Hs.
  - destruct rest; [reflexivity | discriminate].
  - destruct rest as [| r0 rest]; [discriminate |].
    simpl in Hl. injection Hl as Hl.
    cbn [enumerate foldM fst snd]. unfold bind at 1, SetValue; cbn [lower upper avals].
    replace (Z.leb 1 start && Z.leb start
               (Z.of_nat (List.length pre + List.length (x :: xs))))
      with true
      by (symmetry; apply andb_true_iff; split; apply Z.leb_le; simpl; lia).
    replace (Z.to_nat (start - 1)) with (List.length pre) by lia.
    rewrite list_set_app. unfold ret.
    specialize (IH (pre ++ [x]) rest (start + 1)%Z s Hl).
    rewrite length_app in IH. simpl in IH.
    replace (List.length pre + 1 + List.length xs)%nat
      with (List.length pre + List.length (x :: xs))%nat in IH by (simpl; lia).
    rewrite <- !app_assoc in IH. apply IH. lia.
Qed.

Lemma set_values_fresh {A} (dflt : A) (xs : list A) s :
  set_values (mkArray1 1%Z (Z.of_nat (List.length xs))
                (repeat dflt (Z.to_nat (Z.of_nat (List.length xs) - 1 + 1))))
             xs s
  = Ok (mkArray1 1%Z (Z.of_nat (List.length xs)) xs) s.
Proof.
  replace (Z.to_nat (Z.of_nat (List.length xs) - 1 + 1)) with (List.length xs)
    by lia.
  unfold set_values.
  apply (set_values_gen xs [] (repeat dflt (List.length xs))).
  - apply repeat_length.
  - reflexivity.
Qed.

Lemma to_tcolgp_array1_pnt_eq (pnts : list pyobj) (g : list gp_Pnt) s :
  collect_gp_pnts pnts [] = inr g ->
  to_tcolgp_array1_pnt pnts s
  = Ok (mkArray1 1%Z (Z.of_nat (List.length g)) g) (S s).
Proof.
  intros H. unfold to_tcolgp_array1_pnt, lift. rewrite H.
  unfold bind, Array1_new, get, put, ret.
  apply set_values_fresh.
Qed.

Lemma collect_gp_pnts_ok (pnts : list pyobj) : forall acc,
  Forall (fun p => exists o, _to_gp_pnt p = inr o) pnts ->
  collect_gp_pnts pnts acc = inr (acc ++ accepted_points pnts).
Proof.
  induction pnts as [| p pnts IH]; intros acc Hf; simpl.
  - now rewrite app_nil_r.
  - inversion Hf as [| ? ? [o Ho] Hr]; subst. rewrite Ho.
    destruct o as [g |]; rewrite IH by assumption.
    + now rewrite <- app_assoc.
    + reflexivity.
Qed.

Lemma collect_gp_pnts_raise (pnts : list pyobj) : forall acc,
  Exists (fun p => exists e, _to_gp_pnt p = inl e) pnts ->
  exists e, collect_gp_pnts pnts acc = inl e.
Proof.
  induction pnts as [| p pnts IH]; intros acc Hx; [inversion Hx |].
  simpl. destruct (_to_gp_pnt p) as [e | [g |]] eqn:Ho.
  - eauto.
  - inversion Hx as [? ? [e He] | ? ? Hr]; subst; [congruence | auto].
  - inversion Hx as [? ? [e He] | ? ? Hr]; subst; [congruence | auto].
Qed.

Lemma accepted_points_length (pnts : list pyobj) :
  Forall (fun p => exists o, _to_gp_pnt p = inr o) pnts ->
  List.length (accepted_points pnts)
  = (List.length pnts - List.length (filter rejected pnts))%nat.
Proof.
  induction pnts as [| p pnts IH]; intros Hf; [reflexivity |].
  inversion Hf as [| ? ? [o Ho] Hr]; subst.
  assert (Hle : (List.length (filter rejected pnts) <= List.length pnts)%nat)
    by apply filter_length_le.
  assert (Hrej : rejected p = match o with None => true | _ => false end)
    by (unfold rejected; rewrite Ho; destruct o; reflexivity).
  unfold accepted_points in *; cbn [flat_map filter]. rewrite Ho, Hrej.
  destruct o; cbn [app List.length]; rewrite IH by assumption; lia.
Qed.

(** C4 (amended): elements that [_to_gp_pnt] turns into [None] (neither a
    [gp_Pnt] nor an array-like of length 3) are skipped: with no element
    raising, N elements of which K are rejected give a kernel array with
    bounds [1 .. N - K] holding the accepted points in order.  An
    array-like of length 3 whose items are not numbers is not skipped:
    [gp_Pnt] raises, and no kernel array is allocated. *)
Theorem to_tcolgp_array1_pnt_skips (pnts : list pyobj) (s : nat) :
  (Forall (fun p => exists o, _to_gp_pnt p = inr o) pnts ->
   to_tcolgp_array1_pnt pnts s
   = Ok (mkArray1 1%Z
           (Z.of_nat (List.length pnts - List.length (filter rejected pnts)))
           (accepted_points pnts)) (S s))
  /\ (Exists (fun p => exists e, _to_gp_pnt p = inl e) pnts ->
      exists e, to_tcolgp_array1_pnt pnts s = Raise e s).
Proof.
  split.
  - intros Hf. rewrite <- accepted_points_length by assumption.
    apply to_tcolgp_array1_pnt_eq. apply collect_gp_pnts_ok. assumption.
  - intros Hx. destruct (collect_gp_pnts_raise pnts [] Hx) as [e He].
    exists e. unfold to_tcolgp_array1_pnt, lift, bind. rewrite He. reflexivity.
Qed.

Lemma comprehension_raise {A} (f : pyobj -> exn + A) (xs : list pyobj) :
  Exists (fun x => exists e, f x = inl e) xs ->
  exists e, comprehension f xs = inl e.
Proof.
  induction 1 as [x r [e He] | x r _ [e He]]; simpl.
  - rewrite He. eauto.
  - destruct (f x); [eauto | rewrite He; eauto].
Qed.

(** C6: when [float()] (resp. [int()]) raises on some element, the
    comprehension raises before [TColStd_Array1OfReal]
    (resp. [TColStd_Array1OfInteger]) is called: the exception reaches the
    caller and no kernel array is allocated. *)
Theorem scalar_conversion_raises (array : list pyobj) (s : nat) :
  (Exists (fun x => exists e, py_float x = inl e) array ->
   exists e, to_tcolstd_array1_real array s = Raise e s)
  /\ (Exists (fun x => exists e, py_int x = inl e) array ->
      exists e, to_tcolstd_array1_integer array s = Raise e s).
Proof.
  split; intros Hx.
  - destruct (comprehension_raise py_float array Hx) as [e He].
    exists e. unfold to_tcolstd_array1_real, lift, bind. rewrite He.
    reflexivity.
  - destruct (comprehension_raise py_int array Hx) as [e He].
    exists e. unfold to_tcolstd_array1_integer, lift, bind. rewrite He.
    reflexivity.
Qed.

Lemma firstn_S_nth_error {A} (g : list A) (k : nat) (x : A) :
  nth_error g k = Some x -> firstn (S k) g = firstn k g ++ [x].
Proof.
  revert k. induction g as [| y g IH]; intros k H; destruct k; simpl in *;
    try discriminate.
  - now injection H as ->.
  - now rewrite (IH k H).
Qed.

Lemma to_np_rows (g : list gp_Pnt) (s : nat) : forall m k arr,
  (k + m = List.length g)%nat ->
  arr = map pnt_coords (firstn k g) ++ repeat [0%Q; 0%Q; 0%Q] m ->
  foldM (fun array i =>
           p <- Value (mkArray1 1%Z (Z.of_nat (List.length g)) g)
                      (Z.of_nat i + 1)%Z;;
           ret (list_set array i [pnt_X p; pnt_Y p; pnt_Z p]))
        (seq k m) arr s
  = Ok (map pnt_coords g) s.
Proof.
  induction m as [| m IH]; intros k arr Hk Ha; subst arr.
  - rewrite app_nil_r. replace k with (List.length g) by lia.
    now rewrite firstn_all.
  - cbn [seq foldM]. unfold bind at 1, bind at 1, Value; cbn [lower upper avals].
    replace (Z.leb 1 (Z.of_nat k + 1) && Z.leb (Z.of_nat k + 1)
               (Z.of_nat (List.length g)))
      with true
      by (symmetry; apply andb_true_iff; split; apply Z.leb_le; lia).
    replace (Z.to_nat (Z.of_nat k + 1 - 1)) with k by lia.
    destruct (nth_error g k) as [x |] eqn:Hx.
    + unfold ret.
      assert (Hl : List.length (map pnt_coords (firstn k g)) = k).
      { rewrite length_map, length_firstn. lia. }
      pose proof (list_set_app (map pnt_coords (firstn k g))
                    (repeat [0%Q; 0%Q; 0%Q] m) [pnt_X x; pnt_Y x; pnt_Z x]
                    [0%Q; 0%Q; 0%Q]) as Hset.
      rewrite Hl in Hset. cbn [repeat]. rewrite Hset.
      apply IH; [lia |].
      rewrite (firstn_S_nth_error g k x Hx), map_app, <- app_assoc.
      reflexivity.
    + apply nth_error_None in Hx. lia.
Qed.

Lemma to_np_from_fresh (g : list gp_Pnt) (s : nat) :
  to_np_from_tcolgp_array1_pnt (mkArray1 1%Z (Z.of_nat (List.length g)) g) s
  = Ok (map pnt_coords g) s.
Proof.
  unfold to_np_from_tcolgp_array1_pnt, Length; cbn [lower upper].
  replace (Z.to_nat (Z.of_nat (List.length g) - 1 + 1)) with (List.length g)
    by lia.
  apply (to_np_rows g s (List.length g) 0); reflexivity.
Qed.

Lemma coords_of_accepted (p : pyobj) (q : gp_Pnt) :
  _to_gp_pnt p = inr (Some q) -> coords_of p = Some (pnt_coords q).
Proof.
  intros H. destruct p as [| z | r | str | l | l | q' | n]; simpl in H;
    try discriminate.
  - destruct l as [| a [| b [| c [| d l]]]]; simpl in H; try discriminate.
    unfold gp_Pnt_new in H; simpl.
    destruct (py_double a), (py_double b), (py_double c); try discriminate.
    injection H as <-. reflexivity.
  - destruct l as [| a [| b [| c [| d l]]]]; simpl in H; try discriminate.
    unfold gp_Pnt_new in H; simpl.
    destruct (py_double a), (py_double b), (py_double c); try discriminate.
    injection H as <-. reflexivity.
  - injection H as <-. reflexivity.
Qed.

Lemma accepted_coords (pnts : list pyobj) :
  Forall (fun p => exists q, _to_gp_pnt p = inr (Some q)) pnts ->
  Forall2 (fun p row => coords_of p = Some row) pnts
          (map pnt_coords (accepted_points pnts)).
Proof.
  induction 1 as [| p pnts [q Hq] _ IH]; [constructor |].
  unfold accepted_points in *. cbn [flat_map]. rewrite Hq. simpl.
  constructor; [apply coords_of_accepted; assumption | exact IH].
Qed.

(** C7: when every element is a point (a [gp_Pnt] or three numbers),
    [to_tcolgp_array1_pnt] followed by [to_np_from_tcolgp_array1_pnt]
    gives one row per element, holding that element's coordinates. *)
Theorem point_array_roundtrip (pnts : list pyobj) (s : nat) :
  Forall (fun p => exists q, _to_gp_pnt p = inr (Some q)) pnts ->
  exists rows,
    (a <- to_tcolgp_array1_pnt pnts;; to_np_from_tcolgp_array1_pnt a) s
    = Ok rows (S s)
    /\ List.length rows = List.length pnts
    /\ Forall2 (fun p row => coords_of p = Some row) pnts rows.
Proof.
  intros Hf. exists (map pnt_coords (accepted_points pnts)).
  assert (H2 := accepted_coords pnts Hf).
  split; [| split].
  - unfold bind at 1.
    rewrite (to_tcolgp_array1_pnt_eq pnts (accepted_points pnts)).
    + apply to_np_from_fresh.
    + apply collect_gp_pnts_ok.
      eapply Forall_impl; [| exact Hf]. intros p [q Hq]. eauto.
  - symmetry. eapply Forall2_length. exact H2.
  - exact H2.
Qed.

Lemma to_np_scalar_rows {A} (g : list A) (z : A) (s : nat) : forall m k arr,
  (k + m = List.length g)%nat ->
  arr = firstn k g ++ repeat z m ->
  foldM (fun array i =>
           x <- Value (mkArray1 1%Z (Z.of_nat (List.length g)) g)
                      (Z.of_nat i + 1)%Z;;
           ret (list_set array i x))
        (seq k m) arr s
  = Ok g s.
Proof.
  induction m as [| m IH]; intros k arr Hk Ha; subst arr.
  - rewrite app_nil_r. replace k with (List.length g) by lia.
    now rewrite firstn_all.
  - cbn [seq foldM]. unfold bind at 1, bind at 1, Value; cbn [lower upper avals].
    replace (Z.leb 1 (Z.of_nat k + 1) && Z.leb (Z.of_nat k + 1)
               (Z.of_nat (List.length g)))
      with true
      by (symmetry; apply andb_true_iff; split; apply Z.leb_le; lia).
    replace (Z.to_nat (Z.of_nat k + 1 - 1)) with k by lia.
    destruct (nth_error g k) as [x |] eqn:Hx.
    + unfold ret.
      assert (Hl : List.length (firstn k g) = k)
        by (rewrite length_firstn; lia).
      pose proof (list_set_app (firstn k g) (repeat z m) x z) as Hset.
      rewrite Hl in Hset. cbn [repeat]. rewrite Hset.
      apply IH; [lia |].
      rewrite (firstn_S_nth_error g k x Hx), <- app_assoc. reflexivity.
    + apply nth_error_None in Hx. lia.
Qed.

(** When [float()] succeeds on every element, [to_tcolstd_array1_real]
    allocates one kernel array with bounds [1 .. N] holding
    [[float(x) for x in array]], and [to_np_from_tcolstd_array1_real] gives
    that list back: scalars are never skipped. *)
Theorem real_array_roundtrip (array : list pyobj) (flts : list Q) (s : nat) :
  comprehension py_float array = inr flts ->
  to_tcolstd_array1_real array s
  = Ok (mkArray1 1%Z (Z.of_nat (List.length array)) flts) (S s)
  /\ (a <- to_tcolstd_array1_real array;; to_np_from_tcolstd_array1_real a) s
     = Ok flts (S s).
Proof.
  intros Hc.
  assert (Hl : List.length flts = List.length array).
  { clear s. revert flts Hc. induction array as [| x r IH]; intros flts Hc;
      simpl in Hc.
    - now injection Hc as <-.
    - destruct (py_float x); [discriminate |].
      destruct (comprehension py_float r) as [| l]; [discriminate |].
      injection Hc as <-. simpl. now rewrite (IH l eq_refl). }
  assert (H1 : to_tcolstd_array1_real array s
               = Ok (mkArray1 1%Z (Z.of_nat (List.length flts)) flts) (S s)).
  { unfold to_tcolstd_array1_real, lift. rewrite Hc.
    unfold bind, Array1_new, get, put, ret. apply set_values_fresh. }
  rewrite Hl in H1. split; [exact H1 |].
  unfold bind at 1. rewrite H1. rewrite <- Hl.
  unfold to_np_from_tcolstd_array1_real, Length; cbn [lower upper].
  replace (Z.to_nat (Z.of_nat (List.length flts) - 1 + 1))
    with (List.length flts) by lia.
  apply (to_np_scalar_rows flts 0%Q (S s) (List.length flts) 0); reflexivity.
Qed.

Lemma set_int_values_in_range (xs : list Z) : forall start a s,
  Forall (fun z => in_int32 z = true) xs ->
  foldM (fun a ix => SetValueInt a (fst ix) (snd ix)) (enumerate start xs) a s
  = foldM (fun a ix => SetValue a (fst ix) (snd ix)) (enumerate start xs) a s.
Proof.
  induction xs as [| x xs IH]; intros start a s Hr; [reflexivity |].
  inversion Hr as [| ? ? Hx Hxs]; subst.
  cbn [enumerate foldM fst snd]. unfold bind, SetValueInt. rewrite Hx.
  destruct (SetValue a start x s); [apply IH; exact Hxs | reflexivity].
Qed.

Lemma set_int_values_overflow (xs : list Z) : forall start vals N s,
  Exists (fun z => in_int32 z = false) xs ->
  (1 <= start)%Z -> (start + Z.of_nat (List.length xs) - 1 <= N)%Z ->
  foldM (fun a ix => SetValueInt a (fst ix) (snd ix)) (enumerate start xs)
        (mkArray1 1%Z N vals) s = Raise OverflowError s.
Proof.
  induction xs as [| x xs IH]; intros start vals N s Hx Hs HN;
    [inversion Hx |].
  cbn [enumerate foldM fst snd]. unfold bind at 1, SetValueInt.
  destruct (in_int32 x) eqn:Hin.
  - assert (Hxs : Exists (fun z => in_int32 z = false) xs)
      by (inversion Hx; [congruence | assumption]).
    unfold SetValue; cbn [lower upper avals]. simpl in HN.
    replace (Z.leb 1 start && Z.leb start N) with true
      by (symmetry; apply andb_true_iff; split; apply Z.leb_le; lia).
    unfold ret. apply IH; [exact Hxs | lia | lia].
  - reflexivity.
Qed.

(** The same for [int()], when every value fits a 32-bit
    [Standard_Integer]: [to_tcolstd_array1_integer] then
    [to_np_from_tcolstd_array1_integer] gives [[int(x) for x in array]]. *)
Theorem integer_array_roundtrip (array : list pyobj) (ints : list Z) (s : nat) :
  comprehension py_int array = inr ints ->
  Forall (fun z => in_int32 z = true) ints ->
  to_tcolstd_array1_integer array s
  = Ok (mkArray1 1%Z (Z.of_nat (List.length array)) ints) (S s)
  /\ (a <- to_tcolstd_array1_integer array;; to_np_from_tcolstd_array1_integer a) s
     = Ok ints (S s).
Proof.
  intros Hc Hr.
  assert (Hl : List.length ints = List.length array).
  { clear s Hr. revert ints Hc. induction array as [| x r IH]; intros ints Hc;
      simpl in Hc.
    - now injection Hc as <-.
    - destruct (py_int x); [discriminate |].
      destruct (comprehension py_int r) as [| l]; [discriminate |].
      injection Hc as <-. simpl. now rewrite (IH l eq_refl). }
  assert (H1 : to_tcolstd_array1_integer array s
               = Ok (mkArray1 1%Z (Z.of_nat (List.length ints)) ints) (S s)).
  { unfold to_tcolstd_array1_integer, lift. rewrite Hc.
    unfold bind at 1 2, Array1_new, get, bind, put, ret at 1 2.
    rewrite set_int_values_in_range by exact Hr.
    apply set_values_fresh. }
  rewrite Hl in H1. split; [exact H1 |].
  unfold bind at 1. rewrite H1. rewrite <- Hl.
  unfold to_np_from_tcolstd_array1_integer, Length; cbn [lower upper].
  replace (Z.to_nat (Z.of_nat (List.length ints) - 1 + 1))
    with (List.length ints) by lia.
  apply (to_np_scalar_rows ints 0%Z (S s) (List.length ints) 0); reflexivity.
Qed.

(** [int()] accepts any Python int, but [SetValue] takes a 32-bit
    [Standard_Integer]: when some [int(x)] is out of that range,
    [to_tcolstd_array1_integer] raises [OverflowError] after the kernel
    array has been allocated. *)
Theorem integer_array_overflow (array : list pyobj) (ints : list Z) (s : nat) :
  comprehension py_int array = inr ints ->
  Exists (fun z => in_int32 z = false) ints ->
  to_tcolstd_array1_integer array s = Raise OverflowError (S s).
Proof.
  intros Hc Hx. unfold to_tcolstd_array1_integer, lift. rewrite Hc.
  unfold bind at 1 2, Array1_new, get, bind, put, ret at 1 2.
  apply set_int_values_overflow; [exact Hx | lia | lia].
Qed.

(** [to_tcolgp_harray1_pnt] skips and raises exactly like
    [to_tcolgp_array1_pnt]: with no element raising, N elements of which K
    are rejected give a handle array with bounds [1 .. N - K] holding the
    accepted points in order. *)
Theorem to_tcolgp_harray1_pnt_skips (pnts : list pyobj) (s : nat) :
  Forall (fun p => exists o, _to_gp_pnt p = inr o) pnts ->
  to_tcolgp_harray1_pnt pnts s
  = Ok (mkArray1 1%Z
          (Z.of_nat (List.length pnts - List.length (filter rejected pnts)))
          (accepted_points pnts)) (S s).
Proof.
  intros Hf. rewrite <- accepted_points_length by assumption.
  unfold to_tcolgp_harray1_pnt, lift.
  rewrite (collect_gp_pnts_ok pnts [] Hf).
  unfold bind, Array1_new, get, put, ret. apply set_values_fresh.
Qed.

(** *** 2-D arrays *)

Lemma mapE_Forall2 {A B} (f : A -> exn + B) (xs : list A) (ys : list B) :
  Forall2 (fun x y => f x = inr y) xs ys -> mapE f xs = inr ys.
Proof. induction 1 as [| x y xs ys Hxy _ IH]; simpl; [reflexivity | now rewrite Hxy, IH]. Qed.

Lemma np_float_node (l : list pyobj) (vs : list nd) (sh : list nat) :
  Forall2 (fun x v => np_float x = inr v) l vs -> vs <> [] ->
  Forall (fun v => nd_shape v = sh) vs ->
  np_float (PList l) = inr (NNode vs)
  /\ nd_shape (NNode vs) = List.length vs :: sh.
Proof.
  intros H2 Hne Hsh. destruct vs as [| c r]; [contradiction |].
  pose proof (Forall_inv Hsh) as Hc; pose proof (Forall_inv_tail Hsh) as Hr.
  split; [| simpl; now rewrite Hc].
  simpl. rewrite (mapE_Forall2 np_float l (c :: r) H2).
  replace (forallb (same_shape (nd_shape c)) r) with true; [reflexivity |].
  symmetry. apply forallb_forall. intros v Hv.
  rewrite Forall_forall in Hr. unfold same_shape.
  rewrite (Hr v Hv), Hc. destruct (list_eq_dec Nat.eq_dec _ _); congruence.
Qed.

(** The NumPy array made from a non-empty rectangular grid of cells of one
    shape [sh]. *)
Lemma np_float_grid (xs : list (list pyobj)) (V : list (list nd))
    (m : nat) (sh : list nat) :
  Forall2 (Forall2 (fun x v => np_float x = inr v)) xs V ->
  V <> [] -> (1 <= m)%nat ->
  Forall (fun r => List.length r = m) V ->
  Forall (Forall (fun v => nd_shape v = sh)) V ->
  np_float (PList (map PList xs)) = inr (NNode (map NNode V))
  /\ nd_shape (NNode (map NNode V)) = List.length V :: m :: sh.
Proof.
  intros H2 Hne Hm Hlen Hsh.
  rewrite <- (length_map NNode V).
  apply np_float_node.
  - clear Hne. induction H2 as [| row vrow xs V Hrow _ IH]; simpl; constructor.
    + inversion Hlen as [| ? ? Hl _]; inversion Hsh as [| ? ? Hs _]; subst.
      destruct vrow; [simpl in Hm; lia |].
      exact (proj1 (np_float_node row (n :: vrow) sh Hrow ltac:(discriminate) Hs)).
    + inversion Hlen; inversion Hsh; subst. auto.
  - destruct V; [contradiction | discriminate].
  - rewrite Forall_map. rewrite Forall_forall in *. intros vrow Hv.
    specialize (Hlen vrow Hv). specialize (Hsh vrow Hv).
    destruct vrow as [| v0 vrow]; [simpl in Hlen; lia |].
    rewrite <- Hlen. inversion Hsh; subst. simpl. congruence.
Qed.

Lemma SetValue2_hit {A} (rhi chi i j : Z) (pre post : list (list A))
    (done rest : list A) (y x : A) (s : nat) :
  i = (Z.of_nat (List.length pre) + 1)%Z ->
  j = (Z.of_nat (List.length done) + 1)%Z ->
  (i <= rhi)%Z -> (j <= chi)%Z ->
  SetValue2 (mkArray2 A 1 rhi 1 chi (pre ++ (done ++ y :: rest) :: post)) i j x s
  = Ok (mkArray2 A 1 rhi 1 chi (pre ++ (done ++ x :: rest) :: post)) s.
Proof.
  intros Hi Hj Hr Hc. unfold SetValue2, in_bounds2; cbn [row_lo row_hi col_lo col_hi cells].
  replace (Z.leb 1 i && Z.leb i rhi && Z.leb 1 j && Z.leb j chi) with true
    by (symmetry; rewrite !andb_true_iff; rewrite !Z.leb_le; lia).
  replace (Z.to_nat (i - 1)) with (List.length pre) by lia.
  replace (Z.to_nat (j - 1)) with (List.length done) by lia.
  rewrite nth_middle, !list_set_app. reflexivity.
Qed.

Lemma Value2_hit {A} (n m : Z) (g : list (list A)) (i j : nat)
    (gi : list A) (x : A) (s : nat) :
  nth_error g i = Some gi -> nth_error gi j = Some x ->
  (Z.of_nat i < n)%Z -> (Z.of_nat j < m)%Z ->
  Value2 (mkArray2 A 1 n 1 m g) (Z.of_nat i + 1) (Z.of_nat j + 1) s = Ok x s.
Proof.
  intros Hgi Hx Hn Hm. unfold Value2, in_bounds2; cbn [row_lo row_hi col_lo col_hi cells].
  replace (Z.leb 1 (Z.of_nat i + 1) && Z.leb (Z.of_nat i + 1) n &&
           Z.leb 1 (Z.of_nat j + 1) && Z.leb (Z.of_nat j + 1) m) with true
    by (symmetry; rewrite !andb_true_iff; rewrite !Z.leb_le; lia).
  replace (Z.to_nat (Z.of_nat i + 1 - 1)) with i by lia.
  replace (Z.to_nat (Z.of_nat j + 1 - 1)) with j by lia.
  now rewrite Hgi, Hx.
Qed.

Section Back2.
Context {A B : Type} (f : A -> B) (z : B) (g : list (list A)) (m : nat).
Hypothesis Hrows : Forall (fun r => List.length r = m) g.

Let t := mkArray2 A 1 (Z.of_nat (List.length g)) 1 (Z.of_nat m) g.

Let body (i : nat) := fun (array : list (list B)) (j : nat) =>
  p <- Value2 t (Z.of_nat i + 1) (Z.of_nat j + 1);;
  ret (list_set array i (list_set (nth i array []) j (f p))).

Lemma back2_inner (i : nat) (gi : list A) (pre post : list (list B)) (s : nat) :
  nth_error g i = Some gi -> List.length pre = i ->
  forall r k rest, (k + r = m)%nat -> List.length rest = r ->
  foldM (body i) (seq k r) (pre ++ (map f (firstn k gi) ++ rest) :: post) s
  = Ok (pre ++ map f gi :: post) s.
Proof.
  intros Hgi Hpre. assert (Hi : (i < List.length g)%nat)
    by (apply nth_error_Some; congruence).
  assert (Hl : List.length gi = m).
  { rewrite Forall_forall in Hrows. apply Hrows. eapply nth_error_In. eauto. }
  induction r as [| r IH]; intros k rest Hk Hr.
  - destruct rest; [| discriminate]. rewrite app_nil_r.
    replace k with (List.length gi) by lia. now rewrite firstn_all.
  - destruct rest as [| y rest]; [discriminate |]. simpl in Hr.
    destruct (nth_error gi k) as [x |] eqn:Hx;
      [| apply nth_error_None in Hx; lia].
    cbn [seq foldM]. unfold bind at 1, body at 1, bind at 1, t.
    rewrite (Value2_hit _ _ g i k gi x s Hgi Hx) by lia.
    unfold ret. rewrite <- Hpre, nth_middle.
    assert (Hd : List.length (map f (firstn k gi)) = k)
      by (rewrite length_map, length_firstn; lia).
    pose proof (list_set_app (map f (firstn k gi)) rest (f x) y) as Hs1.
    rewrite Hd in Hs1. rewrite Hs1, list_set_app, Hpre.
    replace (map f (firstn k gi) ++ f x :: rest)
      with (map f (firstn (S k) gi) ++ rest)
      by (rewrite (firstn_S_nth_error gi k x Hx), map_app, <- app_assoc; reflexivity).
    apply IH; lia.
Qed.

Lemma back2_outer : forall r k (s : nat), (k + r = List.length g)%nat ->
  foldM (fun array i => foldM (body i) (seq 0 m) array) (seq k r)
        (map (map f) (firstn k g) ++ repeat (repeat z m) r) s
  = Ok (map (map f) g) s.
Proof.
  induction r as [| r IH]; intros k s Hk.
  - rewrite app_nil_r. replace k with (List.length g) by lia.
    now rewrite firstn_all.
  - destruct (nth_error g k) as [gk |] eqn:Hgk;
      [| apply nth_error_None in Hgk; lia].
    cbn [seq foldM repeat]. unfold bind at 1.
    pose proof (back2_inner k gk (map (map f) (firstn k g)) (repeat (repeat z m) r) s
               Hgk ltac:(rewrite length_map, length_firstn; lia)
               m 0 (repeat z m) ltac:(lia) (repeat_length _ _)) as Hin.
    cbn [firstn map app] in Hin. rewrite Hin.
    replace (map (map f) (firstn k g) ++ map f gk :: repeat (repeat z m) r)
      with (map (map f) (firstn (S k) g) ++ repeat (repeat z m) r)
      by (rewrite (firstn_S_nth_error g k gk Hgk), map_app, <- app_assoc; reflexivity).
    apply IH. lia.
Qed.

End Back2.

Lemma Forall2_map_r {A B C} (P : A -> B -> Prop) (Q : A -> C -> Prop) (h : B -> C)
    (xs : list A) (ys : list B) :
  (forall x y, P x y -> Q x (h y)) -> Forall2 P xs ys -> Forall2 Q xs (map h ys).
Proof. intros HPQ H. induction H; simpl; constructor; auto. Qed.

Lemma Forall_map_length {A B} (h : A -> B) (g : list (list A)) (m : nat) :
  Forall (fun r => List.length r = m) g ->
  Forall (fun r => List.length r = m) (map (map h) g).
Proof.
  intros H. rewrite Forall_map. eapply Forall_impl; [| exact H].
  intros r Hr. now rewrite length_map.
Qed.

Section Fill2Real.
Context (g : list (list Q)) (m : nat).
Hypothesis Hrows : Forall (fun r => List.length r = m) g.

Let flts := NNode (map NNode (map (map NLeaf) g)).
Let mk (c : list (list Q)) := mkArray2 Q 1 (Z.of_nat (List.length g)) 1 (Z.of_nat m) c.

Lemma fill2_real_inner (i : nat) (gi : list Q) (pre post : list (list Q)) (s : nat) :
  nth_error g (i - 1) = Some gi -> List.length pre = (i - 1)%nat -> (1 <= i)%nat ->
  forall r k rest, (k + r = m)%nat -> List.length rest = r ->
  foldM (fun a j =>
           x <- lift (match nd_at flts (i - 1) (j - 1) with
                      | inl e => inl e
                      | inr c => nd_float c
                      end);;
           SetValue2 a (Z.of_nat i) (Z.of_nat j) x)
        (seq (S k) r) (mk (pre ++ (firstn k gi ++ rest) :: post)) s
  = Ok (mk (pre ++ gi :: post)) s.
Proof.
  intros Hgi Hpre Hi1. assert (Hi : (i - 1 < List.length g)%nat)
    by (apply nth_error_Some; congruence).
  assert (Hl : List.length gi = m).
  { rewrite Forall_forall in Hrows. apply Hrows. eapply nth_error_In. eauto. }
  induction r as [| r IH]; intros k rest Hk Hr.
  - destruct rest; [| discriminate]. rewrite app_nil_r.
    replace k with (List.length gi) by lia. now rewrite firstn_all.
  - destruct rest as [| y rest]; [discriminate |]. simpl in Hr.
    destruct (nth_error gi k) as [x |] eqn:Hx;
      [| apply nth_error_None in Hx; lia].
    assert (Hv : forall s', lift (match nd_at flts (i - 1) (S k - 1) with
                                  | inl e => inl e
                                  | inr c => nd_float c
                                  end) s' = Ok x s').
    { intros s'. replace (S k - 1)%nat with k by lia.
      unfold flts, nd_at. rewrite !nth_error_map, Hgi. cbn [option_map].
      rewrite nth_error_map, Hx. reflexivity. }
    cbn [seq foldM]. unfold bind at 1 2. rewrite Hv.
    unfold mk. rewrite SetValue2_hit by (rewrite ?length_firstn; lia).
    replace (firstn k gi ++ x :: rest) with (firstn (S k) gi ++ rest)
      by (rewrite (firstn_S_nth_error gi k x Hx), <- app_assoc; reflexivity).
    apply IH; lia.
Qed.

Lemma fill2_real_outer : forall r k (s : nat), (k + r = List.length g)%nat ->
  foldM (fun a i =>
           foldM (fun a j =>
                    x <- lift (match nd_at flts (i - 1) (j - 1) with
                               | inl e => inl e
                               | inr c => nd_float c
                               end);;
                    SetValue2 a (Z.of_nat i) (Z.of_nat j) x)
                 (seq 1 m) a)
        (seq (S k) r) (mk (firstn k g ++ repeat (repeat 0%Q m) r)) s
  = Ok (mk g) s.
Proof.
  induction r as [| r IH]; intros k s Hk.
  - rewrite app_nil_r. replace k with (List.length g) by lia.
    now rewrite firstn_all.
  - destruct (nth_error g k) as [gk |] eqn:Hgk;
      [| apply nth_error_None in Hgk; lia].
    cbn [seq foldM repeat]. unfold bind at 1.
    pose proof (fill2_real_inner (S k) gk (firstn k g) (repeat (repeat 0%Q m) r) s
                  ltac:(now replace (S k - 1)%nat with k by lia)
                  ltac:(rewrite length_firstn; lia) ltac:(lia)
                  m 0 (repeat 0%Q m) ltac:(lia) (repeat_length _ _)) as Hin.
    cbn [firstn app] in Hin. rewrite Hin.
    replace (firstn k g ++ gk :: repeat (repeat 0%Q m) r)
      with (firstn (S k) g ++ repeat (repeat 0%Q m) r)
      by (rewrite (firstn_S_nth_error g k gk Hgk), <- app_assoc; reflexivity).
    apply IH. lia.
Qed.

End Fill2Real.

(** [to_tcolstd_array2_real] on a non-empty [n x m] grid of Python floats
    allocates one kernel array with bounds [1 .. n] x [1 .. m] holding the
    grid, and [to_np_from_tcolstd_array2_real] gives the grid back. *)
Theorem real_array2_roundtrip (xs : list (list pyobj)) (g : list (list Q))
    (m s : nat) :
  Forall2 (Forall2 (fun x q => np_float x = inr (NLeaf q))) xs g ->
  g <> [] -> (1 <= m)%nat -> Forall (fun r => List.length r = m) g ->
  to_tcolstd_array2_real (PList (map PList xs)) s
  = Ok (mkArray2 Q 1 (Z.of_nat (List.length g)) 1 (Z.of_nat m) g) (S s)
  /\ (a <- to_tcolstd_array2_real (PList (map PList xs));;
      to_np_from_tcolstd_array2_real a) s = Ok g (S s).
Proof.
  intros H2 Hne Hm Hrows.
  assert (HV : Forall2 (Forall2 (fun x v => np_float x = inr v)) xs
                       (map (map NLeaf) g)).
  { eapply Forall2_map_r; [| exact H2].
    intros row qs Hrow. eapply Forall2_map_r; [| exact Hrow].
    auto. }
  destruct (np_float_grid xs (map (map NLeaf) g) m [] HV
              ltac:(destruct g; [contradiction | discriminate]) Hm
              (Forall_map_length NLeaf g m Hrows)
              ltac:(rewrite Forall_map; apply Forall_forall; intros r _;
                    rewrite Forall_map; apply Forall_forall; reflexivity))
    as [Hnp Hsh].
  assert (H1 : to_tcolstd_array2_real (PList (map PList xs)) s
               = Ok (mkArray2 Q 1 (Z.of_nat (List.length g)) 1 (Z.of_nat m) g) (S s)).
  { unfold to_tcolstd_array2_real, bind at 1, lift. rewrite Hnp.
    unfold ret at 1. rewrite Hsh, !length_map.
    unfold bind, Array2_new, get, put, ret at 1.
    replace (Z.to_nat (Z.of_nat m - 1 + 1)) with m by lia.
    replace (Z.to_nat (Z.of_nat (List.length g) - 1 + 1)) with (List.length g) by lia.
    exact (fill2_real_outer g m Hrows (List.length g) 0 (S s) ltac:(lia)). }
  split; [exact H1 |].
  unfold bind at 1. rewrite H1.
  unfold to_np_from_tcolstd_array2_real, ColLength, RowLength;
    cbn [row_lo row_hi col_lo col_hi].
  replace (Z.to_nat (Z.of_nat m - 1 + 1)) with m by lia.
  replace (Z.to_nat (Z.of_nat (List.length g) - 1 + 1)) with (List.length g) by lia.
  pose proof (back2_outer (fun x => x) 0%Q g m Hrows (List.length g) 0 (S s)
                ltac:(lia)) as Hb.
  cbn [firstn map app] in Hb.
  assert (Hid : map (map (fun x : Q => x)) g = g).
  { rewrite <- (map_id g) at 2. apply map_ext. intros r. apply map_id. }
  rewrite Hid in Hb. exact Hb.
Qed.

Lemma skipn_cons_nth {A} (l : list A) (k : nat) (x : A) (r : list A) :
  skipn k l = x :: r -> nth_error l k = Some x /\ skipn (S k) l = r.
Proof.
  revert k. induction l as [| y l IH]; intros [| k] H; simpl in *;
    try discriminate; [injection H as -> ->; auto | auto].
Qed.

Lemma mapE_seq {B} (f : nat -> exn + B) (ys : list B) (k : nat) :
  (forall i y, nth_error ys i = Some y -> f (k + i)%nat = inr y) ->
  mapE f (seq k (List.length ys)) = inr ys.
Proof.
  revert k. induction ys as [| y ys IH]; intros k H; [reflexivity |].
  simpl. rewrite <- (Nat.add_0_r k) at 1. rewrite (H 0%nat y eq_refl).
  rewrite IH; [reflexivity |]. intros i y' Hi.
  replace (S k + i)%nat with (k + S i)%nat by lia. now apply H.
Qed.

Lemma to_gp_pnt_nd (p : gp_Pnt) : _to_gp_pnt (nd_to_py (pnt_nd p)) = inr (Some p).
Proof. now destruct p. Qed.

Section Fill2Pnt.
Context (g : list (list gp_Pnt)) (m : nat).
Hypothesis Hrows : Forall (fun r => List.length r = m) g.

Let mk (c : list (list gp_Pnt)) :=
  mkArray2 gp_Pnt 1 (Z.of_nat (List.length g)) 1 (Z.of_nat m) c.

Lemma fill2_pnt_inner (ri : Z) (gi : list gp_Pnt) (pre post : list (list gp_Pnt))
    (s : nat) :
  ri = (Z.of_nat (List.length pre) + 1)%Z ->
  (List.length pre < List.length g)%nat -> List.length gi = m ->
  forall cs k rest, skipn k gi = cs -> List.length rest = List.length cs ->
  foldM (fun a jgp =>
           match snd jgp with
           | Some gp => SetValue2 a ri (fst jgp) gp
           | None => raise ValueError
           end) (enumerate (Z.of_nat k + 1) (map Some cs))
        (mk (pre ++ (firstn k gi ++ rest) :: post)) s
  = Ok (mk (pre ++ gi :: post)) s.
Proof.
  intros Hri Hpre Hgi. induction cs as [| c cs IH]; intros k rest Hk Hr.
  - destruct rest; [| discriminate]. rewrite app_nil_r.
    assert (Hle : (List.length gi <= k)%nat).
    { pose proof (length_skipn k gi) as Hs. rewrite Hk in Hs. simpl in Hs. lia. }
    now rewrite firstn_all2 by exact Hle.
  - destruct rest as [| y rest]; [discriminate |]. simpl in Hr.
    destruct (skipn_cons_nth gi k c cs Hk) as [Hc Hcs].
    assert (Hkm : (k < m)%nat) by (rewrite <- Hgi; apply nth_error_Some; congruence).
    cbn [map enumerate foldM fst snd]. unfold bind at 1. unfold mk.
    rewrite SetValue2_hit by (rewrite ?length_firstn; lia).
    replace (firstn k gi ++ c :: rest) with (firstn (S k) gi ++ rest)
      by (rewrite (firstn_S_nth_error gi k c Hc), <- app_assoc; reflexivity).
    replace (Z.of_nat k + 1 + 1)%Z with (Z.of_nat (S k) + 1)%Z by lia.
    apply IH; [exact Hcs | lia].
Qed.

Lemma fill2_pnt_outer : forall rows k (s : nat), skipn k g = rows ->
  foldM (fun a irow =>
           foldM (fun a jgp =>
                    match snd jgp with
                    | Some gp => SetValue2 a (fst irow) (fst jgp) gp
                    | None => raise ValueError
                    end) (enumerate 1%Z (snd irow)) a)
        (enumerate (Z.of_nat k + 1) (map (map Some) rows))
        (mk (firstn k g ++ repeat (repeat gp_origin m) (List.length rows))) s
  = Ok (mk g) s.
Proof.
  induction rows as [| row rows IH]; intros k s Hk.
  - rewrite app_nil_r.
    assert (Hle : (List.length g <= k)%nat).
    { pose proof (length_skipn k g) as Hs. rewrite Hk in Hs. simpl in Hs. lia. }
    now rewrite firstn_all2 by exact Hle.
  - destruct (skipn_cons_nth g k row rows Hk) as [Hrow Hrs].
    assert (Hkg : (k < List.length g)%nat) by (apply nth_error_Some; congruence).
    assert (Hl : List.length row = m).
    { rewrite Forall_forall in Hrows. apply Hrows. eapply nth_error_In. eauto. }
    cbn [map enumerate foldM fst snd repeat List.length]. unfold bind at 1.
    pose proof (fill2_pnt_inner (Z.of_nat k + 1) row (firstn k g)
                  (repeat (repeat gp_origin m) (List.length rows)) s
                  ltac:(rewrite length_firstn; lia) ltac:(rewrite length_firstn; lia) Hl
                  row 0 (repeat gp_origin m) eq_refl
                  ltac:(rewrite repeat_length; lia)) as Hin.
    cbn [firstn app Z.of_nat] in Hin. replace (0 + 1)%Z with 1%Z in Hin by reflexivity.
    unfold mk in Hin |- *. rewrite Hin.
    replace (firstn k g ++ row :: repeat (repeat gp_origin m) (List.length rows))
      with (firstn (S k) g ++ repeat (repeat gp_origin m) (List.length rows))
      by (rewrite (firstn_S_nth_error g k row Hrow), <- app_assoc; reflexivity).
    replace (Z.of_nat k + 1 + 1)%Z with (Z.of_nat (S k) + 1)%Z by lia.
    apply IH. exact Hrs.
Qed.

End Fill2Pnt.

Lemma gp_pnts_grid {A} (h : A -> nd) (o : A -> option gp_Pnt)
    (g : list (list A)) (m : nat) :
  (forall a, _to_gp_pnt (nd_to_py (h a)) = inr (o a)) ->
  Forall (fun r => List.length r = m) g ->
  mapE (fun i =>
          mapE (fun j =>
                  match nd_at (NNode (map NNode (map (map h) g))) i j with
                  | inl e => inl e
                  | inr c => _to_gp_pnt (nd_to_py c)
                  end) (seq 0 m)) (seq 0 (List.length g))
  = inr (map (map o) g).
Proof.
  intros Hh Hrows. rewrite <- (length_map (map o) g). apply mapE_seq.
  intros i y Hy. rewrite nth_error_map in Hy.
  destruct (nth_error g i) as [gi |] eqn:Hgi; [| discriminate].
  injection Hy as <-.
  assert (Hl : List.length gi = m).
  { rewrite Forall_forall in Hrows. apply Hrows. eapply nth_error_In. eauto. }
  rewrite <- Hl, <- (length_map o gi). apply mapE_seq.
  intros j c Hc. rewrite nth_error_map in Hc.
  destruct (nth_error gi j) as [p |] eqn:Hp; [| discriminate].
  injection Hc as <-. cbn [Nat.add]. unfold nd_at.
  rewrite !nth_error_map, Hgi. cbn [option_map].
  rewrite nth_error_map, Hp. cbn [option_map]. apply Hh.
Qed.

(** [to_tcolgp_array2_pnt] on a non-empty [n x m] grid whose cells each
    convert to a NumPy row [[x, y, z]] allocates one kernel array with
    bounds [1 .. n] x [1 .. m] holding the points in place (none skipped),
    and [to_np_from_tcolgp_array2_pnt] gives back the [n x m x 3]
    coordinates. *)
Theorem point_array2_roundtrip (xs : list (list pyobj)) (g : list (list gp_Pnt))
    (m s : nat) :
  Forall2 (Forall2 (fun x p => np_float x = inr (pnt_nd p))) xs g ->
  g <> [] -> (1 <= m)%nat -> Forall (fun r => List.length r = m) g ->
  to_tcolgp_array2_pnt (PList (map PList xs)) s
  = Ok (mkArray2 gp_Pnt 1 (Z.of_nat (List.length g)) 1 (Z.of_nat m) g) (S s)
  /\ (a <- to_tcolgp_array2_pnt (PList (map PList xs));;
      to_np_from_tcolgp_array2_pnt a) s = Ok (map (map pnt_coords) g) (S s).
Proof.
  intros H2 Hne Hm Hrows.
  assert (HV : Forall2 (Forall2 (fun x v => np_float x = inr v)) xs
                       (map (map pnt_nd) g)).
  { eapply Forall2_map_r; [| exact H2].
    intros row ps Hrow. eapply Forall2_map_r; [| exact Hrow]. auto. }
  destruct (np_float_grid xs (map (map pnt_nd) g) m [3%nat] HV
              ltac:(destruct g; [contradiction | discriminate]) Hm
              (Forall_map_length pnt_nd g m Hrows)
              ltac:(rewrite Forall_map; apply Forall_forall; intros r _;
                    rewrite Forall_map; apply Forall_forall; reflexivity))
    as [Hnp Hsh].
  assert (H1 : to_tcolgp_array2_pnt (PList (map PList xs)) s
               = Ok (mkArray2 gp_Pnt 1 (Z.of_nat (List.length g)) 1 (Z.of_nat m) g)
                    (S s)).
  { unfold to_tcolgp_array2_pnt, bind at 1, lift at 1. rewrite Hnp.
    unfold ret at 1. rewrite Hsh, !length_map.
    unfold bind at 1, lift at 1. rewrite (gp_pnts_grid pnt_nd Some g m to_gp_pnt_nd Hrows).
    unfold ret at 1, bind at 1, Array2_new, bind, get, put, ret at 1.
    replace (Z.to_nat (Z.of_nat m - 1 + 1)) with m by lia.
    replace (Z.to_nat (Z.of_nat (List.length g) - 1 + 1)) with (List.length g) by lia.
    pose proof (fill2_pnt_outer g m Hrows g 0 (S s) eq_refl) as Hf.
    cbn [firstn app Z.of_nat] in Hf. exact Hf. }
  split; [exact H1 |].
  unfold bind at 1. rewrite H1.
  unfold to_np_from_tcolgp_array2_pnt, ColLength, RowLength;
    cbn [row_lo row_hi col_lo col_hi].
  replace (Z.to_nat (Z.of_nat m - 1 + 1)) with m by lia.
  replace (Z.to_nat (Z.of_nat (List.length g) - 1 + 1)) with (List.length g) by lia.
  pose proof (back2_outer pnt_coords [0%Q; 0%Q; 0%Q] g m Hrows (List.length g) 0 (S s)
                ltac:(lia)) as Hb.
  cbn [firstn map app] in Hb. exact Hb.
Qed.

(** The NumPy row [[x, y]] of a pair of numbers. *)
Lemma to_gp_pnt_pair (ab : Q * Q) :
  _to_gp_pnt (nd_to_py (NNode [NLeaf (fst ab); NLeaf (snd ab)])) = inr None.
Proof. reflexivity. Qed.

(** Unlike the 1-D conversion, [to_tcolgp_array2_pnt] never skips: on a
    non-empty [n x m] grid of pairs [[x, y]], [_to_gp_pnt] gives [None] for
    every cell, and [array.SetValue(i, j, None)] on the first cell raises
    [ValueError] (null reference) after the kernel array has been
    allocated. *)
Theorem to_tcolgp_array2_pnt_pairs_raise (xs : list (list pyobj))
    (g : list (list (Q * Q))) (m s : nat) :
  Forall2 (Forall2 (fun x ab => np_float x = inr (NNode [NLeaf (fst ab); NLeaf (snd ab)])))
          xs g ->
  g <> [] -> (1 <= m)%nat -> Forall (fun r => List.length r = m) g ->
  to_tcolgp_array2_pnt (PList (map PList xs)) s = Raise ValueError (S s).
Proof.
  intros H2 Hne Hm Hrows.
  set (h := fun ab : Q * Q => NNode [NLeaf (fst ab); NLeaf (snd ab)]).
  assert (HV : Forall2 (Forall2 (fun x v => np_float x = inr v)) xs (map (map h) g)).
  { eapply Forall2_map_r; [| exact H2].
    intros row ps Hrow. eapply Forall2_map_r; [| exact Hrow]. auto. }
  destruct (np_float_grid xs (map (map h) g) m [2%nat] HV
              ltac:(destruct g; [contradiction | discriminate]) Hm
              (Forall_map_length h g m Hrows)
              ltac:(rewrite Forall_map; apply Forall_forall; intros r _;
                    rewrite Forall_map; apply Forall_forall; reflexivity))
    as [Hnp Hsh].
  unfold to_tcolgp_array2_pnt, bind at 1, lift at 1. rewrite Hnp.
  unfold ret at 1. rewrite Hsh, !length_map.
  unfold bind at 1, lift at 1.
  rewrite (gp_pnts_grid h (fun _ => None) g m to_gp_pnt_pair Hrows).
  unfold ret at 1, bind at 1, Array2_new, bind at 1, get, bind at 1, put, ret at 1.
  destruct g as [| r0 g']; [contradiction |].
  inversion Hrows as [| ? ? Hr0 _]; subst m.
  destruct r0 as [| ab r0]; [simpl in Hm; lia |].
  reflexivity.
Qed.

(** Dimension checks: [to_tcolstd_array2_real] raises [ValueError] on an
    array that is not two-dimensional, and [to_tcolgp_array2_pnt] on one
    with fewer than two dimensions, in both cases before any kernel array
    is allocated. *)
Theorem array2_dimension_checks (x : pyobj) (v : nd) (s : nat) :
  np_float x = inr v ->
  (List.length (nd_shape v) <> 2%nat ->
   to_tcolstd_array2_real x s = Raise ValueError s)
  /\ ((List.length (nd_shape v) < 2)%nat ->
      to_tcolgp_array2_pnt x s = Raise ValueError s).
Proof.
  intros Hnp. split; intros Hd.
  - unfold to_tcolstd_array2_real, bind at 1, lift. rewrite Hnp. unfold ret.
    destruct (nd_shape v) as [| n [| m [| k sh]]]; simpl in Hd;
      [reflexivity | reflexivity | lia | reflexivity].
  - unfold to_tcolgp_array2_pnt, bind at 1, lift at 1. rewrite Hnp. unfold ret at 1.
    destruct (nd_shape v) as [| n [| m sh]]; simpl in Hd;
      [reflexivity | reflexivity | lia].
Qed.

End TcolProofs.

(** ** Concrete runs *)

(** C1: at the class doctest's input, [SplitShapes(e1, e2)] adds [e2] as a
    second argument and leaves the tool list empty, while the manual path
    of the same doctest ([set_args([e1])], [set_tools([e2])]) makes [e2]
    the tool. *)
Lemma SplitShapes_shape2_as_argument :
  @SplitShapes occ_kernel (PShape 1) (PShape 2) true None (fresh [])
  = Ok tt (mkSt (Some (mkEngine Splitter [] [PShape 1; PShape 2] [] true None
                        (Ran true)
                        [SetRunParallel true; AddArgument (PShape 1);
                         AddArgument (PShape 2); Perform])) [])
  /\ (@SplitShapes occ_kernel PNone PNone true None;;
      @set_args occ_kernel [PShape 1];; @set_tools occ_kernel [PShape 2])
       (fresh [])
  = Ok tt (mkSt (Some (mkEngine Splitter [] [PShape 1] [PShape 2] true None
                        NotRun
                        [SetRunParallel true; AddArgument (PShape 1);
                         AddTool (PShape 2)])) []).
Proof. split; reflexivity. Qed.

(** C2: [FuseShapes(e1, e2)] is done right after construction, without
    any [build()]. *)
Lemma FuseShapes_done_without_build :
  ~ exists s,
      (@FuseShapes occ_kernel (PShape 1) (PShape 2) true None;; is_done)
        (fresh []) = Ok false s.
Proof. intros [s H]. vm_compute in H. discriminate. Qed.

Lemma api_two_operands_done_at_construction_witness :
  is_splitter Fuse = false /\ is_shape (PShape 1) = true /\
  is_shape (PShape 2) = true /\
  (@BopAlgo___init__ occ_kernel (PShape 1) (PShape 2) true None Fuse;;
   is_done) (fresh [])
  = Ok true (mkSt (Some (mkEngine Fuse [PShape 1; PShape 2] [PShape 1]
                           [PShape 2] true None (Ran true)
                           [SetRunParallel true])) []).
Proof.
  split; [reflexivity | split; [reflexivity | split; [reflexivity |]]].
  exact (proj1 (@api_two_operands_done_at_construction occ_kernel Fuse
                  (PShape 1) (PShape 2) true None [] eq_refl eq_refl eq_refl)).
Defined.

Lemma SplitShapes_done_at_construction_witness :
  is_shape (PShape 1) = true /\ is_shape (PShape 2) = true /\
  @kernel_ok occ_kernel Splitter [PShape 1; PShape 2] [] = true /\
  exists e, @SplitShapes occ_kernel (PShape 1) (PShape 2) true None (fresh [])
            = Ok tt (mkSt (Some e) [])
         /\ In Perform (calls e)
         /\ is_done (mkSt (Some e) []) = Ok true (mkSt (Some e) []).
Proof.
  split; [reflexivity | split; [reflexivity | split; [reflexivity |]]].
  exact (@SplitShapes_done_at_construction occ_kernel (PShape 1) (PShape 2)
           true None [] eq_refl eq_refl eq_refl).
Defined.

(** C4: a triple with a missing coordinate cannot be coerced to a point,
    yet it is not skipped: the conversion raises. *)
Lemma to_tcolgp_array1_pnt_bad_triple_raises :
  ~ exists a s,
      to_tcolgp_array1_pnt [PList [PFloat 1; PFloat 2; PNone]] 0%nat = Ok a s
      /\ lower a = 1%Z /\ Length a = 0%Z.
Proof. intros [a [s [H _]]]. vm_compute in H. discriminate. Qed.

Lemma to_tcolgp_array1_pnt_skips_witness :
  Forall (fun p => exists o, _to_gp_pnt p = inr o)
    [PList [PInt 1; PInt 2; PInt 3]; PNone; PPnt (mk_gp_Pnt 4 5 6)] /\
  to_tcolgp_array1_pnt
    [PList [PInt 1; PInt 2; PInt 3]; PNone; PPnt (mk_gp_Pnt 4 5 6)] 0%nat
  = Ok (mkArray1 1%Z 2%Z [mk_gp_Pnt (inject_Z 1) (inject_Z 2) (inject_Z 3);
                          mk_gp_Pnt 4 5 6]) 1%nat.
Proof.
  assert (Hf : Forall (fun p => exists o, _to_gp_pnt p = inr o)
    [PList [PInt 1; PInt 2; PInt 3]; PNone; PPnt (mk_gp_Pnt 4 5 6)])
    by (repeat constructor; eexists; reflexivity).
  split; [exact Hf |].
  exact (proj1 (to_tcolgp_array1_pnt_skips
                  [PList [PInt 1; PInt 2; PInt 3]; PNone;
                   PPnt (mk_gp_Pnt 4 5 6)] 0%nat) Hf).
Defined.

Lemma splitter_set_first_only_witness :
  kind (configured_engine Splitter true None) = Splitter /\
  @set_args occ_kernel [PShape 1; PShape 2]
    (mkSt (Some (configured_engine Splitter true None)) [])
  = Ok tt (mkSt (Some (mkEngine Splitter [] [PShape 1] [] true None NotRun
                        [SetRunParallel true; AddArgument (PShape 1)])) []).
Proof.
  split; [reflexivity |].
  exact (proj1 (@splitter_set_first_only occ_kernel
                  (configured_engine Splitter true None) [] (PShape 1)
                  [PShape 2] eq_refl)).
Defined.

Lemma scalar_conversion_raises_witness :
  Exists (fun x => exists e, @py_float no_parse x = inl e) [PInt 1; PNone] /\
  exists e, @to_tcolstd_array1_real no_parse [PInt 1; PNone] 0%nat
            = Raise e 0%nat.
Proof.
  assert (Hx : Exists (fun x => exists e, @py_float no_parse x = inl e)
                 [PInt 1; PNone])
    by (apply Exists_cons_tl, Exists_cons_hd; exists TypeError; reflexivity).
  split; [exact Hx |].
  exact (proj1 (@scalar_conversion_raises no_parse [PInt 1; PNone] 0%nat) Hx).
Defined.

Lemma point_array_roundtrip_witness :
  Forall (fun p => exists q, _to_gp_pnt p = inr (Some q))
    [PList [PInt 1; PFloat 2; PInt 3]; PPnt (mk_gp_Pnt 4 5 6)] /\
  exists rows,
    (a <- to_tcolgp_array1_pnt
            [PList [PInt 1; PFloat 2; PInt 3]; PPnt (mk_gp_Pnt 4 5 6)];;
     to_np_from_tcolgp_array1_pnt a) 0%nat = Ok rows 1%nat
    /\ List.length rows = 2%nat
    /\ Forall2 (fun p row => coords_of p = Some row)
         [PList [PInt 1; PFloat 2; PInt 3]; PPnt (mk_gp_Pnt 4 5 6)] rows.
Proof.
  assert (Hf : Forall (fun p => exists q, _to_gp_pnt p = inr (Some q))
    [PList [PInt 1; PFloat 2; PInt 3]; PPnt (mk_gp_Pnt 4 5 6)])
    by (repeat constructor; eexists; reflexivity).
  split; [exact Hf |].
  exact (point_array_roundtrip
           [PList [PInt 1; PFloat 2; PInt 3]; PPnt (mk_gp_Pnt 4 5 6)] 0%nat Hf).
Defined.

Lemma splitter_unsupported_queries_witness :
  kind (configured_engine Splitter false None) = Splitter /\
  @fuse_edges occ_kernel (mkSt (Some (configured_engine Splitter false None)) [])
  = Ok false (mkSt (Some (configured_engine Splitter false None)) []).
Proof.
  split; [reflexivity |].
  exact (proj2 (proj2 (@splitter_unsupported_queries occ_kernel
                         (configured_engine Splitter false None) [] eq_refl))).
Defined.

Lemma construction_fallback_witness :
  is_shape PNone && is_shape (PShape 2) = false /\
  @SplitShapes occ_kernel PNone (PShape 2) true (Some 1%Q) (fresh [])
  = Ok tt (mkSt (Some (configured_engine Splitter true (Some 1%Q))) []).
Proof.
  split; [reflexivity |].
  exact (proj1 (proj2 (@construction_fallback occ_kernel PNone (PShape 2) true
                         (Some 1%Q) [] eq_refl))).
Defined.

Lemma splitter_add_accumulates_witness :
  kind (configured_engine Splitter true None) = Splitter /\
  for_each (@add_arg occ_kernel) [PShape 1; PShape 2]
    (mkSt (Some (configured_engine Splitter true None)) [])
  = Ok tt (mkSt (Some (mkEngine Splitter [] [PShape 1; PShape 2] [] true None
                        NotRun
                        [SetRunParallel true; AddArgument (PShape 1);
                         AddArgument (PShape 2)])) []).
Proof.
  split; [reflexivity |].
  exact (proj1 (@splitter_add_accumulates occ_kernel [PShape 1; PShape 2]
                  (configured_engine Splitter true None) [] eq_refl)).
Defined.

Lemma api_manual_path_witness :
  is_splitter Fuse = false /\
  (@BopAlgo___init__ occ_kernel PNone PNone true None Fuse;;
   @set_args occ_kernel [PShape 1];; @set_tools occ_kernel [PShape 2];;
   @build occ_kernel;; is_done) (fresh [])
  = Ok true (mkSt (Some (mkEngine Fuse [] [PShape 1] [PShape 2] true None
                           (Ran true)
                           [SetRunParallel true; SetArguments [PShape 1];
                            SetTools [PShape 2]; Build])) []).
Proof.
  split; [reflexivity |].
  exact (proj2 (@api_manual_path occ_kernel Fuse [PShape 1] [PShape 2] true None
                  [] eq_refl)).
Defined.

Lemma real_array_roundtrip_witness :
  comprehension (@py_float no_parse) [PInt 1; PFloat 2] = inr [inject_Z 1; 2%Q] /\
  @to_tcolstd_array1_real no_parse [PInt 1; PFloat 2] 0%nat
  = Ok (mkArray1 1%Z 2%Z [inject_Z 1; 2%Q]) 1%nat.
Proof.
  split; [reflexivity |].
  exact (proj1 (@real_array_roundtrip no_parse [PInt 1; PFloat 2]
                  [inject_Z 1; 2%Q] 0%nat eq_refl)).
Defined.

Lemma integer_array_roundtrip_witness :
  comprehension (@py_int no_parse) [PInt 3; PInt 4] = inr [3%Z; 4%Z] /\
  Forall (fun z => in_int32 z = true) [3%Z; 4%Z] /\
  (a <- @to_tcolstd_array1_integer no_parse [PInt 3; PInt 4];;
   to_np_from_tcolstd_array1_integer a) 0%nat = Ok [3%Z; 4%Z] 1%nat.
Proof.
  assert (Hr : Forall (fun z => in_int32 z = true) [3%Z; 4%Z])
    by (repeat constructor).
  split; [reflexivity | split; [exact Hr |]].
  exact (proj2 (@integer_array_roundtrip no_parse [PInt 3; PInt 4]
                  [3%Z; 4%Z] 0%nat eq_refl Hr)).
Defined.

Lemma integer_array_overflow_witness :
  comprehension (@py_int no_parse) [PInt 1; PInt (2 ^ 40)] = inr [1%Z; (2 ^ 40)%Z] /\
  Exists (fun z => in_int32 z = false) [1%Z; (2 ^ 40)%Z] /\
  @to_tcolstd_array1_integer no_parse [PInt 1; PInt (2 ^ 40)] 0%nat
  = Raise OverflowError 1%nat.
Proof.
  assert (Hx : Exists (fun z => in_int32 z = false) [1%Z; (2 ^ 40)%Z])
    by (apply Exists_cons_tl, Exists_cons_hd; reflexivity).
  split; [reflexivity | split; [exact Hx |]].
  exact (@integer_array_overflow no_parse [PInt 1; PInt (2 ^ 40)]
           [1%Z; (2 ^ 40)%Z] 0%nat eq_refl Hx).
Defined.

Lemma to_tcolgp_harray1_pnt_skips_witness :
  Forall (fun p => exists o, _to_gp_pnt p = inr o)
    [PPnt (mk_gp_Pnt 1 2 3); PList [PInt 1; PInt 2]] /\
  to_tcolgp_harray1_pnt [PPnt (mk_gp_Pnt 1 2 3); PList [PInt 1; PInt 2]] 0%nat
  = Ok (mkArray1 1%Z 1%Z [mk_gp_Pnt 1 2 3]) 1%nat.
Proof.
  assert (Hf : Forall (fun p => exists o, _to_gp_pnt p = inr o)
    [PPnt (mk_gp_Pnt 1 2 3); PList [PInt 1; PInt 2]])
    by (repeat constructor; eexists; reflexivity).
  split; [exact Hf |].
  exact (to_tcolgp_harray1_pnt_skips
           [PPnt (mk_gp_Pnt 1 2 3); PList [PInt 1; PInt 2]] 0%nat Hf).
Defined.

Lemma real_array2_roundtrip_witness :
  Forall2 (Forall2 (fun x q => @np_float no_parse x = inr (NLeaf q)))
    [[PFloat 1; PFloat 2]; [PInt 3; PFloat 4]] [[1%Q; 2%Q]; [inject_Z 3; 4%Q]] /\
  (a <- @to_tcolstd_array2_real no_parse
          (PList (map PList [[PFloat 1; PFloat 2]; [PInt 3; PFloat 4]]));;
   to_np_from_tcolstd_array2_real a) 0%nat
  = Ok [[1%Q; 2%Q]; [inject_Z 3; 4%Q]] 1%nat.
Proof.
  assert (H2 : Forall2 (Forall2 (fun x q => @np_float no_parse x = inr (NLeaf q)))
    [[PFloat 1; PFloat 2]; [PInt 3; PFloat 4]] [[1%Q; 2%Q]; [inject_Z 3; 4%Q]])
    by (repeat constructor).
  split; [exact H2 |].
  exact (proj2 (@real_array2_roundtrip no_parse
                  [[PFloat 1; PFloat 2]; [PInt 3; PFloat 4]]
                  [[1%Q; 2%Q]; [inject_Z 3; 4%Q]] 2 0 H2
                  ltac:(discriminate) ltac:(lia) ltac:(repeat constructor))).
Defined.

Lemma point_array2_roundtrip_witness :
  Forall2 (Forall2 (fun x p => @np_float no_parse x = inr (pnt_nd p)))
    [[PList [PFloat 1; PFloat 2; PFloat 3]; PList [PFloat 4; PFloat 5; PFloat 6]]]
    [[mk_gp_Pnt 1 2 3; mk_gp_Pnt 4 5 6]] /\
  @to_tcolgp_array2_pnt no_parse
    (PList (map PList [[PList [PFloat 1; PFloat 2; PFloat 3];
                        PList [PFloat 4; PFloat 5; PFloat 6]]])) 0%nat
  = Ok (mkArray2 gp_Pnt 1 1 1 2 [[mk_gp_Pnt 1 2 3; mk_gp_Pnt 4 5 6]]) 1%nat.
Proof.
  assert (H2 : Forall2 (Forall2 (fun x p => @np_float no_parse x = inr (pnt_nd p)))
    [[PList [PFloat 1; PFloat 2; PFloat 3]; PList [PFloat 4; PFloat 5; PFloat 6]]]
    [[mk_gp_Pnt 1 2 3; mk_gp_Pnt 4 5 6]])
    by (repeat constructor).
  split; [exact H2 |].
  exact (proj1 (@point_array2_roundtrip no_parse
                  [[PList [PFloat 1; PFloat 2; PFloat 3];
                    PList [PFloat 4; PFloat 5; PFloat 6]]]
                  [[mk_gp_Pnt 1 2 3; mk_gp_Pnt 4 5 6]] 2 0 H2
                  ltac:(discriminate) ltac:(lia) ltac:(repeat constructor))).
Defined.

Lemma to_tcolgp_array2_pnt_pairs_raise_witness :
  Forall2 (Forall2 (fun x ab =>
             @np_float no_parse x = inr (NNode [NLeaf (fst ab); NLeaf (snd ab)])))
    [[PList [PFloat 1; PFloat 2]]] [[(1%Q, 2%Q)]] /\
  @to_tcolgp_array2_pnt no_parse (PList (map PList [[PList [PFloat 1; PFloat 2]]]))
    0%nat = Raise ValueError 1%nat.
Proof.
  assert (H2 : Forall2 (Forall2 (fun x ab =>
             @np_float no_parse x = inr (NNode [NLeaf (fst ab); NLeaf (snd ab)])))
    [[PList [PFloat 1; PFloat 2]]] [[(1%Q, 2%Q)]])
    by (repeat constructor).
  split; [exact H2 |].
  exact (@to_tcolgp_array2_pnt_pairs_raise no_parse [[PList [PFloat 1; PFloat 2]]]
           [[(1%Q, 2%Q)]] 1 0 H2 ltac:(discriminate) ltac:(lia)
           ltac:(repeat constructor)).
Defined.

Lemma array2_dimension_checks_witness :
  @np_float no_parse (PList [PFloat 1; PFloat 2]) = inr (NNode [NLeaf 1; NLeaf 2]) /\
  @to_tcolstd_array2_real no_parse (PList [PFloat 1; PFloat 2]) 0%nat
  = Raise ValueError 0%nat /\
  @to_tcolgp_array2_pnt no_parse (PList [PFloat 1; PFloat 2]) 0%nat
  = Raise ValueError 0%nat.
Proof.
  assert (Hnp : @np_float no_parse (PList [PFloat 1; PFloat 2])
                = inr (NNode [NLeaf 1; NLeaf 2])) by reflexivity.
  pose proof (@array2_dimension_checks no_parse (PList [PFloat 1; PFloat 2])
                (NNode [NLeaf 1; NLeaf 2]) 0%nat Hnp) as [Hr Hp].
  split; [exact Hnp | split].
  - apply Hr. discriminate.
  - apply Hp. simpl. lia.
Defined.
